(** * resource: REST resource routing over net/http

    A shallow embedding of [resource.go]: the pattern matcher [NewContext],
    the parameter carrier [FromContext], the dispatching [resourceHandler]
    and the registration facade [Router], followed by the properties of the
    routing core.

    Go strings are byte sequences: they are [string] here, one [ascii] per
    byte.  A Go run-time panic (index out of range, a refused multiplexer
    registration) is [None]. *)

From stdpp Require Import gmap strings list fin_maps pretty.
From Stdlib Require Import ZArith Ascii String Lia.

Open Scope string_scope.
Open Scope Z_scope.

(** ** Go string primitives *)

Module GoString.

(** [len(s)], a Go [int]. *)
Definition len (s : string) : Z := Z.of_nat (String.length s).

(** [s[i]]: panics unless [0 <= i < len(s)]. *)
Definition index (s : string) (i : Z) : option ascii :=
  if (0 <=? i) && (i <? len s) then String.get (Z.to_nat i) s else None.

(** [s[:j]]: panics unless [0 <= j <= len(s)]. *)
Definition slice_to (s : string) (j : Z) : option string :=
  if (0 <=? j) && (j <=? len s) then Some (String.substring 0 (Z.to_nat j) s)
  else None.

(** [s[i:]]: panics unless [0 <= i <= len(s)]. *)
Definition slice_from (s : string) (i : Z) : option string :=
  if (0 <=? i) && (i <=? len s)
  then Some (String.substring (Z.to_nat i) (String.length s - Z.to_nat i) s)
  else None.

(** [strings.HasPrefix(s, prefix)]:
    [len(s) >= len(prefix) && s[:len(prefix)] == prefix]. *)
Definition HasPrefix (s prefix : string) : bool :=
  (len prefix <=? len s) &&
  match slice_to s (len prefix) with
  | Some t => String.eqb t prefix
  | None => false
  end.

(** [strings.TrimPrefix(s, prefix)]: [s[len(prefix):]] when [s] has the
    prefix, [s] otherwise. *)
Definition TrimPrefix (s prefix : string) : string :=
  if HasPrefix s prefix
  then match slice_from s (len prefix) with Some t => t | None => s end
  else s.

(** [strings.Split(s, "/")]: the substrings between the separators, one more
    than there are separators; [Split("", "/")] is [[""]]. *)
Fixpoint Split (s : string) : list string :=
  match s with
  | EmptyString => [EmptyString]
  | String c s' =>
      if Ascii.eqb c "/" then EmptyString :: Split s'
      else match Split s' with
           | x :: xs => String c x :: xs
           | [] => [String c EmptyString]
           end
  end.

End GoString.

(** ** Go's [path] package: [Clean] and [Join] *)

Module GoPath.

(** The write buffer of [Clean] ([lazybuf]): its contents up to [w] are the
    string [out], and [w = length out]. *)

(** The backtracking of a [..] element,
    [out.w--; for out.w > dotdot && out.index(out.w) != '/' { out.w-- }],
    started at [w] (already decremented once); [out] still holds the bytes
    above [w]. *)
Fixpoint backtrack (out : string) (dotdot : nat) (w : nat) : nat :=
  match w with
  | O => O
  | S w' =>
      if (dotdot <? w)%nat &&
         negb (match String.get w out with
               | Some c => Ascii.eqb c "/"
               | None => false
               end)
      then backtrack out dotdot w'
      else w
  end.

(** The loop [for r < n] of [Clean]; [rest] is [path[r:]].  [in_elem] is set
    while the inner loop of the default case copies a path element. *)
Fixpoint Clean_loop (rooted in_elem : bool) (rest : string)
    (dotdot : nat) (out : string) : string :=
  match rest with
  | EmptyString => out
  | String c rest' =>
      if in_elem then
        (* for ; r < n && path[r] != '/'; r++ { out.append(path[r]) } *)
        if Ascii.eqb c "/" then Clean_loop rooted false rest' dotdot out
        else Clean_loop rooted true rest' dotdot (out ++ String c EmptyString)
      else if Ascii.eqb c "/" then
        (* empty path element *)
        Clean_loop rooted false rest' dotdot out
      else
        let dot_elem :=
          Ascii.eqb c "." &&
          match rest' with
          | EmptyString => true
          | String c1 _ => Ascii.eqb c1 "/"
          end in
        if dot_elem then
          (* . element *)
          Clean_loop rooted false rest' dotdot out
        else
          match rest' with
          | String c1 rest'' =>
              let dotdot_elem :=
                Ascii.eqb c "." && Ascii.eqb c1 "." &&
                match rest'' with
                | EmptyString => true
                | String c2 _ => Ascii.eqb c2 "/"
                end in
              if dotdot_elem then
                (* .. element: remove to last / *)
                if (dotdot <? String.length out)%nat then
                  let w := backtrack out dotdot (String.length out - 1) in
                  Clean_loop rooted false rest'' dotdot (String.substring 0 w out)
                else if negb rooted then
                  let out1 :=
                    if (0 <? String.length out)%nat then out ++ "/" else out in
                  let out2 := out1 ++ ".." in
                  Clean_loop rooted false rest'' (String.length out2) out2
                else Clean_loop rooted false rest'' dotdot out
              else
                (* real path element: add slash if needed, copy element *)
                let out1 :=
                  if (rooted && negb (String.length out =? 1)%nat) ||
                     (negb rooted && negb (String.length out =? 0)%nat)
                  then out ++ "/" else out in
                Clean_loop rooted true rest' dotdot (out1 ++ String c EmptyString)
          | EmptyString =>
              let out1 :=
                if (rooted && negb (String.length out =? 1)%nat) ||
                   (negb rooted && negb (String.length out =? 0)%nat)
                then out ++ "/" else out in
              Clean_loop rooted true rest' dotdot (out1 ++ String c EmptyString)
          end
  end.

(** [path.Clean]: the shortest path name equivalent to [path]. *)
Definition Clean (path : string) : string :=
  match path with
  | EmptyString => "."
  | String c rest =>
      let rooted := Ascii.eqb c "/" in
      let out :=
        if rooted then Clean_loop true false rest 1 "/"
        else Clean_loop false false path 0 "" in
      if (String.length out =? 0)%nat then "." else out
  end.

(** The buffer of [Join]: every element after the first non-empty one is
    preceded by a slash. *)
Fixpoint Join_buf (buf : string) (elem : list string) : string :=
  match elem with
  | [] => buf
  | e :: elem' =>
      if (0 <? String.length buf)%nat || negb (String.eqb e "")
      then Join_buf ((if (0 <? String.length buf)%nat then buf ++ "/" else buf) ++ e) elem'
      else Join_buf buf elem'
  end.

(** [path.Join(elem...)]. *)
Definition Join (elem : list string) : string :=
  let size := foldl (fun n e => (n + String.length e)%nat) 0%nat elem in
  if (size =? 0)%nat then "" else Clean (Join_buf "" elem).

End GoPath.

Import GoString.

(** ** Requests, contexts and route parameters *)

(** [RouteParams] is [map[string]string]. *)
Abbreviation RouteParams := (gmap string string).

(** [params[k]] on a Go map: the zero value [""] when the key is absent. *)
Definition RouteParams_get (params : RouteParams) (k : string) : string :=
  default "" (params !! k).

(** Context keys: [paramsKey] is the package's own [ctxKey(0)]; a key of any
    other type belongs to other code. *)
Inductive ctxKey : Type :=
  | paramsKey
  | foreignKey (name : string).

(** Values stored in a context ([interface{}]): a [RouteParams] or anything
    else. *)
Inductive ctxValue : Type :=
  | RouteParamsV (params : RouteParams)
  | foreignV (data : string).

(** [context.Context]: the background context and [context.WithValue]. *)
Inductive Context : Type :=
  | Background
  | WithValue (parent : Context) (key : ctxKey) (val : ctxValue).

Definition ctxKey_eqb (a b : ctxKey) : bool :=
  match a, b with
  | paramsKey, paramsKey => true
  | foreignKey x, foreignKey y => String.eqb x y
  | _, _ => false
  end.

(** [ctx.Value(key)]: the value of the innermost [WithValue] for [key]. *)
Fixpoint Value (ctx : Context) (key : ctxKey) : option ctxValue :=
  match ctx with
  | Background => None
  | WithValue parent k v => if ctxKey_eqb k key then Some v else Value parent key
  end.

(** [*http.Request], as far as the router reads it. *)
Record Request : Type := mkRequest {
  Method : string;
  URL_Path : string;
  Ctx : Context
}.

(** [r.WithContext(ctx)]: a copy of [r] with its context changed. *)
Definition WithContext (r : Request) (ctx : Context) : Request :=
  {| Method := Method r; URL_Path := URL_Path r; Ctx := ctx |}.

(** [len(p) > 0 && p[0] == ':'] *)
Definition is_param (p : string) : bool :=
  (0 <? len p) &&
  match index p 0 with
  | Some c => Ascii.eqb c ":"
  | None => false
  end.

(** [p[1:]], taken only where [is_param p] holds. *)
Definition param_name (p : string) : string :=
  match slice_from p 1 with
  | Some name => name
  | None => p
  end.

(** The loop of [NewContext]: [for i, p := range patParts], from index [i]
    on, leaving at the first index that [urlParts] does not have. *)
Fixpoint NewContext_loop (urlParts : list string) (i : nat)
    (patParts : list string) (params : RouteParams) : RouteParams :=
  match patParts with
  | [] => params
  | p :: patParts' =>
      match urlParts !! i with
      | None => params
      | Some u =>
          NewContext_loop urlParts (S i) patParts'
            (if is_param p then <[param_name p := u]> params else params)
      end
  end.

(** The parameters [NewContext] matches. *)
Definition match_params (path pattern : string) : RouteParams :=
  NewContext_loop (Split path) 0 (Split pattern) ∅.

(** [NewContext] creates a context with matched request params. *)
Definition NewContext (ctx : Context) (r : Request) (pattern : string) : Context :=
  WithValue ctx paramsKey (RouteParamsV (match_params (URL_Path r) pattern)).

(** [FromContext] returns the matched params from context:
    [params, ok := ctx.Value(paramsKey).(RouteParams)]. *)
Definition FromContext (ctx : Context) : RouteParams * bool :=
  match Value ctx paramsKey with
  | Some (RouteParamsV params) => (params, true)
  | _ => (∅, false)
  end.

(** ** Response writers and resources *)

(** What a handler does to its [http.ResponseWriter], in order. *)
Inductive WriterOp : Type :=
  | SetHeader (key value : string)
  | WriteHeader (code : Z)
  | Write (data : string).

Abbreviation ResponseWriter := (list WriterOp).

Definition StatusNotFound : Z := 404.
Definition StatusMethodNotAllowed : Z := 405.

(** [http.StatusText], for the codes the router uses. *)
Definition StatusText (code : Z) : string :=
  if code =? 404 then "Not Found"
  else if code =? 405 then "Method Not Allowed"
  else "".

(** [http.Error(w, error, code)]. *)
Definition http_Error (w : ResponseWriter) (error : string) (code : Z)
    : ResponseWriter :=
  (w ++ [SetHeader "Content-Type" "text/plain; charset=utf-8";
         SetHeader "X-Content-Type-Options" "nosniff";
         WriteHeader code;
         Write (error ++ String "010" EmptyString)])%list.

(** [http.NotFound(w, r)]. *)
Definition http_NotFound (w : ResponseWriter) (r : Request) : ResponseWriter :=
  http_Error w "404 page not found" StatusNotFound.

(** The [Resource] interface: five handlers.  An implementation has a state
    of its own, which each call may change along with the response. *)
Class Resource (T : Type) : Type := {
  Index : T -> ResponseWriter -> Request -> T * ResponseWriter;
  Create : T -> ResponseWriter -> Request -> T * ResponseWriter;
  Show : T -> ResponseWriter -> Request -> T * ResponseWriter;
  Update : T -> ResponseWriter -> Request -> T * ResponseWriter;
  Destroy : T -> ResponseWriter -> Request -> T * ResponseWriter
}.

(** ** The resource handler *)

(** [trimPath] drops trailing [/]. *)
Definition trimPath (p : string) : option string :=
  let n := len p in
  c ← index p (n - 1);
  if Ascii.eqb c "/" then slice_to p (n - 1) else Some p.

Record resourceHandler (T : Type) : Type := mkResourceHandler {
  resource : T;
  prefix : string
}.
Arguments mkResourceHandler {T} _ _.
Arguments resource {T} _.
Arguments prefix {T} _.

(** [NewResourceHandler] returns a new resource handler instance (the value
    behind the pointer it returns). *)
Definition NewResourceHandler {T : Type} (prefix : string) (resource : T)
    : option (resourceHandler T) :=
  let n := len prefix in
  c ← index prefix (n - 1);
  prefix1 ← (if Ascii.eqb c "/" then slice_to prefix (n - 1) else Some prefix);
  prefix2 ← trimPath prefix1;
  Some {| resource := resource; prefix := prefix2 |}.

(** [ServeHTTP] dispatches request to Resource. *)
Definition ServeHTTP {T : Type} `{Resource T} (h : resourceHandler T)
    (w : ResponseWriter) (r : Request) : option (T * ResponseWriter) :=
  p ← trimPath (URL_Path r);
  if negb (HasPrefix p (prefix h)) then
    Some (resource h, http_NotFound w r)
  else if String.eqb (Method r) "GET" then
    let s := TrimPrefix p (prefix h) in
    if 0 <? len s then
      let ctx := NewContext (Ctx r) r (GoPath.Join [prefix h; ":id"]) in
      Some (Show (resource h) w (WithContext r ctx))
    else
      Some (Index (resource h) w r)
  else if String.eqb (Method r) "POST" then
    Some (Create (resource h) w r)
  else if String.eqb (Method r) "PUT" then
    let ctx := NewContext (Ctx r) r (GoPath.Join [prefix h; ":id"]) in
    Some (Update (resource h) w (WithContext r ctx))
  else if String.eqb (Method r) "DELETE" then
    let ctx := NewContext (Ctx r) r (GoPath.Join [prefix h; ":id"]) in
    Some (Destroy (resource h) w (WithContext r ctx))
  else
    Some (resource h,
          http_Error w (StatusText StatusMethodNotAllowed) StatusMethodNotAllowed).

(** ** The router *)

Section Router.

Context {T : Type} `{Resource T}.

(** An [http.Handler]: a resource handler or any other handler. *)
Inductive Handler : Type :=
  | ResourceH (h : resourceHandler T)
  | FuncH (fn : ResponseWriter -> Request -> ResponseWriter).

(** Handlers are shared by reference: the heap holds the allocated handler
    objects, and a reference is an index into it. *)
Definition Heap : Type := list Handler.

Definition alloc (heap : Heap) (hd : Handler) : nat * Heap :=
  (List.length heap, (heap ++ [hd])%list).

(** A [Router] wraps an [http.ServeMux]; of the multiplexer, the table of
    registered patterns. *)
Record Router : Type := mkRouter {
  mux : gmap string nat
}.

(** [NewRouter] returns a new Router instance. *)
Definition NewRouter : Router := {| mux := ∅ |}.

(** [ServeMux.Handle], as far as every version of it goes: it panics on an
    empty pattern and on a pattern that is already registered.  (A newer
    multiplexer also refuses patterns it cannot parse and patterns that
    conflict; that is not modelled, so that a registration goes through here
    says nothing about those.) *)
Definition mux_Handle (m : gmap string nat) (pattern : string) (handler : nat)
    : option (gmap string nat) :=
  if String.eqb pattern "" then None
  else match m !! pattern with
       | Some _ => None
       | None => Some (<[pattern := handler]> m)
       end.

(** [Handle] registers a handler for a pattern. *)
Definition Handle (router : Router) (pattern : string) (handler : nat)
    : option Router :=
  m ← mux_Handle (mux router) pattern handler;
  Some {| mux := m |}.

(** [HandleFunc] registers a handler function for a pattern. *)
Definition HandleFunc (heap : Heap) (router : Router) (pattern : string)
    (fn : ResponseWriter -> Request -> ResponseWriter)
    : option (Heap * Router) :=
  let '(l, heap') := alloc heap (FuncH fn) in
  router' ← Handle router pattern l;
  Some (heap', router').

(** [HandleResource] registers a resource as a handler for a pattern. *)
Definition HandleResource (heap : Heap) (router : Router) (pattern : string)
    (res : T) : option (Heap * Router) :=
  p ← trimPath pattern;
  h ← NewResourceHandler p res;
  let '(l, heap') := alloc heap (ResourceH h) in
  m1 ← mux_Handle (mux router) p l;
  m2 ← mux_Handle m1 (p ++ "/") l;
  Some (heap', {| mux := m2 |}).

(** The handler object serves a request. *)
Definition Handler_ServeHTTP (hd : Handler) (w : ResponseWriter) (r : Request)
    : option (option T * ResponseWriter) :=
  match hd with
  | ResourceH h =>
      '(t, w') ← ServeHTTP h w r;
      Some (Some t, w')
  | FuncH fn => Some (None, fn w r)
  end.

(** A request served through the multiplexer entry [pattern]: by the
    handler object that the entry refers to. *)
Definition serve_entry (heap : Heap) (router : Router) (pattern : string)
    (w : ResponseWriter) (r : Request)
    : option (option T * ResponseWriter) :=
  l ← mux router !! pattern;
  hd ← heap !! l;
  Handler_ServeHTTP hd w r.

End Router.

Arguments Handler T : clear implicits.
Arguments Heap T : clear implicits.

(** ** A recording resource

    Like [testResource] of the test suite, all five methods do the same: here
    they log the call and answer 200. *)

Inductive Action : Type := AIndex | ACreate | AShow | AUpdate | ADestroy.

Definition record (a : Action) (log : list (Action * Request))
    (w : ResponseWriter) (r : Request)
    : list (Action * Request) * ResponseWriter :=
  ((log ++ [(a, r)])%list, (w ++ [WriteHeader 200])%list).

#[export] Instance recorder : Resource (list (Action * Request)) := {|
  Index := record AIndex;
  Create := record ACreate;
  Show := record AShow;
  Update := record AUpdate;
  Destroy := record ADestroy
|}.

(** A request with this method and path in the background context, as
    [http.NewRequest] makes one of a method that is not empty and a plain
    path (no parsing or checking of either is modelled). *)
Definition NewRequest (method path : string) : Request :=
  {| Method := method; URL_Path := path; Ctx := Background |}.

(** A resource handler over the recording resource, its log empty. *)
Definition recording (prefix : string) : resourceHandler (list (Action * Request)) :=
  {| resource := []; prefix := prefix |}.

(** A path segment holds no slash: no byte of [s] is one. *)
Fixpoint no_slash (s : string) : bool :=
  match s with
  | EmptyString => true
  | String c s' => negb (Ascii.eqb c "/") && no_slash s'
  end.

(** A plain path element: not empty, without slash, neither [.] nor [..]. *)
Definition plain (s : string) : bool :=
  no_slash s && negb (String.eqb s "") && negb (String.eqb s ".") &&
  negb (String.eqb s "..").

(** The rooted path [/s1/s2/.../sn]. *)
Definition rooted_path (segs : list string) : string :=
  foldr (fun s acc => String "/" (s ++ acc)) "" segs.

(** What a test of the handler observes of a request served from an empty
    log: the calls made, each with whether params are found and what ["id"]
    is bound to, and the response. *)
Definition observed (h : resourceHandler (list (Action * Request))) (r : Request)
    : option (list (Action * bool * option string) * ResponseWriter) :=
  match ServeHTTP h [] r with
  | Some (log, w) =>
      Some (List.map (fun c : Action * Request =>
                        (c.1, (FromContext (Ctx c.2)).2,
                         (FromContext (Ctx c.2)).1 !! "id")) log, w)
  | None => None
  end.

(** [s] ends in a slash. *)
Definition ends_in_slash (s : string) : Prop := exists t, s = t ++ "/".

(** ** The JSON helpers

    [encoding/json] and the reading of a request body lie outside the
    sources; they are arguments here.  An [error] is its text. *)

(** [ReadJSON] reads data from request body to the interface provided.
    [ReadAll r] is [ioutil.ReadAll(r.Body)], the bytes or the error;
    [Unmarshal body data] is [json.Unmarshal(body, data)], what [data] holds
    afterwards and the error. *)
Definition ReadJSON {D : Type} (ReadAll : Request -> string + string)
    (Unmarshal : string -> D -> D * option string) (r : Request) (data : D)
    : D * option string :=
  match ReadAll r with
  | inr err => (data, Some err)
  | inl body =>
      match Unmarshal body data with
      | (data', Some err) => (data', Some err)
      | (data', None) => (data', None)
      end
  end.

(** [WriteJSON] writes data as JSON to the output writer.
    [MarshalIndent data] is [json.MarshalIndent(data, "", "  ")]. *)
Definition WriteJSON {D : Type} (MarshalIndent : D -> string + string)
    (w : ResponseWriter) (data : D) : ResponseWriter * option string :=
  match MarshalIndent data with
  | inr err => (w, Some err)
  | inl output =>
      ((w ++ [SetHeader "Content-Type" "application/json"; Write output])%list, None)
  end.

(** ** The example resource ([example_test.go]) *)

Record Employee : Type := mkEmployee {
  Name : string
}.

(** [EmployeeResource]; a nil [Employees] map is [None].  The mutex is left
    out: one request is served at a time here. *)
Record EmployeeResource : Type := mkEmployeeResource {
  lastID : Z;
  Employees : option (gmap string Employee)
}.

(** What the example takes from outside: the body of a request read to its
    end, and the JSON coding of an employee and of the map of employees. *)
Class External : Type := {
  ReadAll : Request -> string + string;
  UnmarshalEmployee : string -> Employee -> Employee * option string;
  MarshalEmployee : Employee -> string + string;
  MarshalEmployees : option (gmap string Employee) -> string + string
}.

(** Go's [int], taken as 64 bits wide, wraps around. *)
Definition int_wrap (z : Z) : Z := (z + 2 ^ 63) mod 2 ^ 64 - 2 ^ 63.

(** [strconv.Itoa], and [%d] of [fmt]: the decimal numeral. *)
Definition strconv_Itoa (i : Z) : string := pretty i.

Definition StatusBadRequest : Z := 400.
Definition StatusInternalServerError : Z := 500.
Definition StatusOK : Z := 200.

(** [m[id]] on a map that may be nil: the value, if the key is there. *)
Definition Employees_lookup (m : option (gmap string Employee)) (id : string)
    : option Employee :=
  match m with
  | Some m => m !! id
  | None => None
  end.

Section ExampleResource.

Context `{External}.

(** GET /employees *)
Definition EmployeeResource_Index (er : EmployeeResource) (w : ResponseWriter)
    (r : Request) : option (EmployeeResource * ResponseWriter) :=
  match WriteJSON MarshalEmployees w (Employees er) with
  | (w1, Some err) => Some (er, http_Error w1 err StatusInternalServerError)
  | (w1, None) => Some (er, w1)
  end.

(** POST /employees; the assignment to a nil map panics. *)
Definition EmployeeResource_Create (er : EmployeeResource) (w : ResponseWriter)
    (r : Request) : option (EmployeeResource * ResponseWriter) :=
  match ReadJSON ReadAll UnmarshalEmployee r {| Name := "" |} with
  | (_, Some _) => Some (er, http_Error w "Bad Request" StatusBadRequest)
  | (v, None) =>
      let id := int_wrap (lastID er + 1) in
      match Employees er with
      | None => None
      | Some m =>
          Some ({| lastID := int_wrap (lastID er + 1);
                   Employees := Some (<[strconv_Itoa id := v]> m) |},
                (w ++ [Write (strconv_Itoa id)])%list)
      end
  end.

(** GET /employees/:id; [http.NotFound] is not followed by a return. *)
Definition EmployeeResource_Show (er : EmployeeResource) (w : ResponseWriter)
    (r : Request) : option (EmployeeResource * ResponseWriter) :=
  match FromContext (Ctx r) with
  | (_, false) => Some (er, http_Error w "Bad Request" StatusBadRequest)
  | (params, true) =>
      let id := RouteParams_get params "id" in
      let '(e, w1) :=
        match Employees_lookup (Employees er) id with
        | Some e => (e, w)
        | None => ({| Name := "" |}, http_NotFound w r)
        end in
      match WriteJSON MarshalEmployee w1 e with
      | (w2, Some err) => Some (er, http_Error w2 err StatusInternalServerError)
      | (w2, None) => Some (er, w2)
      end
  end.

(** PUT /employees/:id; [http.NotFound] is not followed by a return, and the
    assignment to a nil map panics. *)
Definition EmployeeResource_Update (er : EmployeeResource) (w : ResponseWriter)
    (r : Request) : option (EmployeeResource * ResponseWriter) :=
  match FromContext (Ctx r) with
  | (_, false) => Some (er, http_Error w "Bad Request" StatusBadRequest)
  | (params, true) =>
      let id := RouteParams_get params "id" in
      let w1 :=
        match Employees_lookup (Employees er) id with
        | Some _ => w
        | None => http_NotFound w r
        end in
      match ReadJSON ReadAll UnmarshalEmployee r {| Name := "" |} with
      | (_, Some _) => Some (er, http_Error w1 "Bad Request" StatusBadRequest)
      | (v, None) =>
          match Employees er with
          | None => None
          | Some m =>
              Some ({| lastID := lastID er; Employees := Some (<[id := v]> m) |},
                    (w1 ++ [WriteHeader StatusOK])%list)
          end
      end
  end.

(** DELETE /employees/:id; [http.NotFound] is not followed by a return, and
    [delete] on a nil map does nothing. *)
Definition EmployeeResource_Destroy (er : EmployeeResource) (w : ResponseWriter)
    (r : Request) : option (EmployeeResource * ResponseWriter) :=
  match FromContext (Ctx r) with
  | (_, false) => Some (er, http_Error w "Bad Request" StatusBadRequest)
  | (params, true) =>
      let id := RouteParams_get params "id" in
      let w1 :=
        match Employees_lookup (Employees er) id with
        | Some _ => w
        | None => http_NotFound w r
        end in
      Some ({| lastID := lastID er; Employees := delete id <$> Employees er |},
            (w1 ++ [WriteHeader StatusOK])%list)
  end.

End ExampleResource.

(** The resource of [Example]: [&EmployeeResource{lastID: 0}], its map nil. *)
Definition Example_resource : EmployeeResource :=
  {| lastID := 0; Employees := None |}.

(** Every employee is kept under an id that [Create] has handed out. *)
Definition ids_issued (er : EmployeeResource) : Prop :=
  forall k e, Employees_lookup (Employees er) k = Some e ->
    exists i, 1 <= i <= lastID er /\ k = strconv_Itoa i.

(** A request with the params [{"id": id}] attached, as the handler hands
    one to [Show], [Update] and [Destroy]. *)
Definition item_request (method path id : string) : Request :=
  {| Method := method; URL_Path := path;
     Ctx := WithValue Background paramsKey (RouteParamsV {[ "id" := id ]}) |}.

(** A coding to run the example on: every body read is ["Ann"], a body
    decodes to the employee of that name, an employee encodes as its name. *)
Definition name_coding : External :=
  {| ReadAll := fun _ => inl "Ann";
     UnmarshalEmployee := fun body _ => ({| Name := body |}, None);
     MarshalEmployee := fun e => inl (Name e);
     MarshalEmployees := fun _ => inl "employees" |}.

(** Unfold [ServeHTTP] along a known trimmed path, prefix test and method. *)
Ltac dispatch Htrim Hpre :=
  unfold ServeHTTP; rewrite Htrim; simpl; rewrite Hpre; simpl.

(** * Properties *)

(** ** The Go library functions on examples *)

Example Split_posts : Split "/posts/23/comments" = [""; "posts"; "23"; "comments"].
Proof. reflexivity. Qed.

Example Split_empty : Split "" = [""].
Proof. reflexivity. Qed.

Example Clean_examples :
  GoPath.Clean "a/c" = "a/c" /\ GoPath.Clean "a//c" = "a/c" /\
  GoPath.Clean "a/c/." = "a/c" /\ GoPath.Clean "a/c/b/.." = "a/c" /\
  GoPath.Clean "/../a/c" = "/a/c" /\ GoPath.Clean "/../a/b/../././/c" = "/a/c" /\
  GoPath.Clean "" = "." /\ GoPath.Clean "../../x" = "../../x" /\
  GoPath.Clean "abc/def/../../.." = ".." /\ GoPath.Clean "/" = "/" /\
  GoPath.Clean "abc/./../def" = "def" /\ GoPath.Clean "abc//./../def" = "def" /\
  GoPath.Clean "abc/../../././../def" = "../../def" /\
  GoPath.Clean "/abc/def/../../.." = "/" /\ GoPath.Clean "a.b/..c/.d" = "a.b/..c/.d".
Proof. repeat split; reflexivity. Qed.

Example Join_examples :
  GoPath.Join ["/posts"; ":id"] = "/posts/:id" /\
  GoPath.Join ["/v1//posts"; ":id"] = "/v1/posts/:id" /\
  GoPath.Join [""; ":id"] = ":id" /\
  GoPath.Join ["/"; ":id"] = "/:id" /\
  GoPath.Join ["/posts/"; ":id"] = "/posts/:id" /\
  GoPath.Join [""; ""] = "" /\
  GoPath.Join ["a"; ""] = "a".
Proof. repeat split; reflexivity. Qed.

(** ** Strings: append, slices and prefixes *)

Section StringFacts.

Implicit Types a b s t : string.

Lemma append_cons c a b : String c a ++ b = String c (a ++ b).
Proof. reflexivity. Qed.

Lemma append_nil_l s : "" ++ s = s.
Proof. reflexivity. Qed.

Lemma append_nil_r s : s ++ "" = s.
Proof. induction s as [|c s IH]; [done|by rewrite append_cons, IH]. Qed.

Lemma append_assoc a b t : (a ++ b) ++ t = a ++ (b ++ t).
Proof. induction a as [|c a IH]; [done|by rewrite !append_cons, IH]. Qed.

Lemma length_append a b :
  String.length (a ++ b) = (String.length a + String.length b)%nat.
Proof. induction a as [|c a IH]; [done|rewrite append_cons; simpl; by rewrite IH]. Qed.

Lemma substring_0_append a b : String.substring 0 (String.length a) (a ++ b) = a.
Proof.
  induction a as [|c a IH]; [by destruct b|].
  rewrite append_cons. simpl. by rewrite IH.
Qed.

Lemma substring_all s : String.substring 0 (String.length s) s = s.
Proof. induction s as [|c s IH]; simpl; [done|by rewrite IH]. Qed.

Lemma substring_skip_append a b :
  String.substring (String.length a) (String.length b) (a ++ b) = b.
Proof.
  induction a as [|c a IH]; [apply substring_all|by rewrite append_cons].
Qed.

Lemma get_append_here a c b : String.get (String.length a) (a ++ String c b) = Some c.
Proof. induction a as [|c' a IH]; [done|by rewrite append_cons]. Qed.

(** A string that is not empty ends in a byte. *)
Lemma string_last s : s ≠ "" -> exists t c, s = t ++ String c "".
Proof.
  induction s as [|c s IH]; [done|intros _].
  destruct s as [|c' s'].
  - by exists "", c.
  - destruct IH as (t & d & Ht); [done|].
    exists (String c t), d. by rewrite append_cons, Ht.
Qed.

Lemma len_nonneg s : 0 <= len s.
Proof. unfold len. lia. Qed.

Lemma len_append a b : len (a ++ b) = len a + len b.
Proof. unfold len. rewrite length_append. lia. Qed.

Lemma len_pos s : s ≠ "" -> 0 < len s.
Proof. destruct s; [done|]. unfold len. simpl. lia. Qed.

Lemma slice_to_append a b : slice_to (a ++ b) (len a) = Some a.
Proof.
  unfold slice_to. rewrite len_append.
  pose proof (len_nonneg a). pose proof (len_nonneg b).
  rewrite (proj2 (Z.leb_le _ _)), (proj2 (Z.leb_le _ _)) by lia. simpl.
  unfold len. rewrite Nat2Z.id. by rewrite substring_0_append.
Qed.

Lemma slice_from_append a b : slice_from (a ++ b) (len a) = Some b.
Proof.
  unfold slice_from. rewrite len_append.
  pose proof (len_nonneg a). pose proof (len_nonneg b).
  rewrite (proj2 (Z.leb_le _ _)), (proj2 (Z.leb_le _ _)) by lia. simpl.
  unfold len. rewrite Nat2Z.id, length_append.
  replace (String.length a + String.length b - String.length a)%nat
    with (String.length b) by lia.
  by rewrite substring_skip_append.
Qed.

Lemma HasPrefix_append a b : HasPrefix (a ++ b) a = true.
Proof.
  unfold HasPrefix. rewrite slice_to_append, String.eqb_refl, len_append.
  pose proof (len_nonneg b).
  by rewrite (proj2 (Z.leb_le _ _)) by lia.
Qed.

(** [HasPrefix] is the prefix relation on strings. *)
Lemma HasPrefix_spec s a : HasPrefix s a = true <-> exists t, s = a ++ t.
Proof.
  split.
  - unfold HasPrefix, slice_to. intros Hp.
    apply andb_true_iff in Hp as [Hle Hp].
    apply Z.leb_le in Hle.
    pose proof (len_nonneg a).
    rewrite (proj2 (Z.leb_le _ _)), (proj2 (Z.leb_le _ _)) in Hp by lia.
    simpl in Hp. apply String.eqb_eq in Hp.
    unfold len in *. rewrite Nat2Z.id in Hp.
    assert (Hlen : (String.length a <= String.length s)%nat) by lia.
    clear Hle H. revert a Hp Hlen.
    induction s as [|c s IH]; intros [|d a]; simpl; intros Hp Hlen;
      try done; try lia.
    + by exists "".
    + by exists (String c s).
    + injection Hp as -> Hp.
      destruct (IH a Hp) as [t ->]; [lia|]. by exists t.
  - intros [t ->]. apply HasPrefix_append.
Qed.

Lemma TrimPrefix_append a b : TrimPrefix (a ++ b) a = b.
Proof. unfold TrimPrefix. by rewrite HasPrefix_append, slice_from_append. Qed.

Lemma len_snoc a c : len (a ++ String c "") = len a + 1.
Proof. rewrite len_append. unfold len. simpl. lia. Qed.

Lemma index_last a c : index (a ++ String c "") (len (a ++ String c "") - 1) = Some c.
Proof.
  rewrite len_snoc. replace (len a + 1 - 1) with (len a) by lia.
  unfold index. rewrite len_snoc.
  pose proof (len_nonneg a).
  rewrite (proj2 (Z.leb_le _ _)), (proj2 (Z.ltb_lt _ _)) by lia. simpl.
  unfold len. rewrite Nat2Z.id. apply get_append_here.
Qed.

Lemma slice_to_last a c : slice_to (a ++ String c "") (len (a ++ String c "") - 1) = Some a.
Proof.
  rewrite len_snoc. replace (len a + 1 - 1) with (len a) by lia.
  apply slice_to_append.
Qed.

End StringFacts.

(** ** [trimPath] *)

Section TrimPath.

Implicit Types a b s t : string.

Lemma trimPath_empty : trimPath "" = None.
Proof. reflexivity. Qed.

Lemma trimPath_snoc a c :
  trimPath (a ++ String c "") =
  Some (if Ascii.eqb c "/" then a else a ++ String c "").
Proof.
  unfold trimPath. rewrite index_last. simpl.
  destruct (Ascii.eqb c "/"); [apply slice_to_last|done].
Qed.

(** [trimPath] panics on the empty string only. *)
Lemma trimPath_None s : trimPath s = None <-> s = "".
Proof.
  split; [|by intros ->].
  intros Hs. destruct (decide (s = "")) as [|Hne]; [done|].
  destruct (string_last s Hne) as (t & c & ->).
  by rewrite trimPath_snoc in Hs.
Qed.

Lemma trimPath_slash a : trimPath (a ++ "/") = Some a.
Proof. by rewrite trimPath_snoc. Qed.

(** Trimming leaves what precedes a non-empty tail alone. *)
Lemma trimPath_append a b :
  b ≠ "" -> exists t, trimPath (a ++ b) = Some (a ++ t).
Proof.
  intros Hb. destruct (string_last b Hb) as (t & c & ->).
  rewrite <- append_assoc, trimPath_snoc.
  destruct (Ascii.eqb c "/"); [by exists t|].
  exists (t ++ String c ""). by rewrite append_assoc.
Qed.

(** The paths that [trimPath] leaves as they are: not empty, no trailing
    slash. *)
Lemma trimPath_fixed s :
  trimPath s = Some s <-> exists t c, s = t ++ String c "" /\ c ≠ "/"%char.
Proof.
  split.
  - intros Hs. destruct (decide (s = "")) as [->|Hne]; [done|].
    destruct (string_last s Hne) as (t & c & ->).
    exists t, c. split; [done|]. intros ->.
    rewrite trimPath_slash in Hs. injection Hs as Hs.
    apply (f_equal String.length) in Hs.
    rewrite length_append in Hs. simpl in Hs. lia.
  - intros (t & c & -> & Hc). rewrite trimPath_snoc.
    by rewrite (proj2 (Ascii.eqb_neq _ _) Hc).
Qed.

(** What [trimPath] returns is the path, or the path less one slash. *)
Lemma trimPath_Some s p : trimPath s = Some p -> s = p ++ "/" \/ s = p.
Proof.
  intros Hs. destruct (decide (s = "")) as [->|Hne]; [done|].
  destruct (string_last s Hne) as (t & c & ->).
  rewrite trimPath_snoc in Hs.
  destruct (Ascii.eqb_spec c "/") as [->|Hc]; injection Hs as <-; auto.
Qed.

Lemma append_slash_ne s : s ≠ s ++ "/".
Proof.
  intros Hs. apply (f_equal String.length) in Hs.
  rewrite length_append in Hs. simpl in Hs. lia.
Qed.

End TrimPath.

Lemma no_slash_append (a b : string) :
  no_slash (a ++ b) = no_slash a && no_slash b.
Proof.
  induction a as [|c a IH]; [done|].
  rewrite append_cons. simpl. by rewrite IH, andb_assoc.
Qed.

(** A path that ends in a segment without slash is left as it is. *)
Lemma trimPath_no_slash (a t : string) :
  t ≠ "" -> no_slash t = true -> trimPath (a ++ t) = Some (a ++ t).
Proof.
  intros Ht Hns. destruct (string_last t Ht) as (t' & c & ->).
  rewrite no_slash_append in Hns. apply andb_true_iff in Hns as [_ Hc].
  simpl in Hc. rewrite andb_true_r in Hc. apply negb_true_iff in Hc.
  by rewrite <- append_assoc, trimPath_snoc, Hc.
Qed.

(** ** [Split] *)

Section SplitFacts.

Local Open Scope nat_scope.
Implicit Types a b s t : string.

Lemma Split_nonempty s : Split s ≠ [].
Proof.
  destruct s as [|c s]; simpl; [done|].
  destruct (Ascii.eqb c "/"); [done|by destruct (Split s)].
Qed.

(** The segments of [a/b] are those of [a], then those of [b]. *)
Lemma Split_append_slash a b :
  Split (a ++ String "/" b) = (Split a ++ Split b)%list.
Proof.
  induction a as [|c a IH]; [done|].
  rewrite append_cons. simpl. rewrite IH.
  destruct (Ascii.eqb c "/"); [done|].
  pose proof (Split_nonempty a). by destruct (Split a).
Qed.

Lemma Split_no_slash s : no_slash s = true -> Split s = [s].
Proof.
  induction s as [|c s IH]; simpl; [done|].
  intros [Hc Hs]%andb_true_iff. apply negb_true_iff in Hc.
  by rewrite Hc, IH.
Qed.

(** The first segment of [seg ++ rest], where further segments follow a
    slash. *)
Lemma Split_first_segment seg rest :
  no_slash seg = true ->
  rest = "" \/ (exists rest', rest = String "/" rest') ->
  exists more, Split (seg ++ rest) = seg :: more.
Proof.
  intros Hseg [->|[rest' ->]].
  - exists []. by rewrite append_nil_r, Split_no_slash.
  - exists (Split rest'). by rewrite Split_append_slash, Split_no_slash.
Qed.

(** A tail without slash adds to the last segment: the count stays. *)
Lemma Split_append_no_slash_length (P t : string) :
  no_slash t = true -> List.length (Split (P ++ t)) = List.length (Split P).
Proof.
  intros Ht. induction P as [|c P IH].
  - rewrite append_nil_l. by rewrite Split_no_slash.
  - rewrite append_cons. simpl. destruct (Ascii.eqb c "/"); simpl; [by rewrite IH|].
    pose proof (Split_nonempty (P ++ t)). pose proof (Split_nonempty P).
    destruct (Split (P ++ t)), (Split P); simpl in *; try done.
Qed.

End SplitFacts.

(** ** [Clean] and [Join] on rooted paths of plain elements *)

Section CleanFacts.
Local Open Scope nat_scope.
Import GoPath.

Lemma Clean_loop_copy rooted (s rest : string) d out :
  no_slash s = true ->
  Clean_loop rooted true (s ++ String "/" rest) d out
  = Clean_loop rooted false rest d (out ++ s).
Proof.
  revert out. induction s as [|c s IH]; intros out Hs.
  - by rewrite append_nil_l, append_nil_r.
  - simpl in Hs. apply andb_true_iff in Hs as [Hc Hs]. apply negb_true_iff in Hc.
    rewrite append_cons. simpl. rewrite Hc, IH by done.
    by rewrite append_assoc.
Qed.

Lemma Clean_loop_copy_end rooted (s : string) d out :
  no_slash s = true -> Clean_loop rooted true s d out = out ++ s.
Proof.
  revert out. induction s as [|c s IH]; intros out Hs.
  - by rewrite append_nil_r.
  - simpl in Hs. apply andb_true_iff in Hs as [Hc Hs]. apply negb_true_iff in Hc.
    simpl. rewrite Hc, IH by done. by rewrite append_assoc.
Qed.

(** A plain element is a real path element for the loop: a slash is added
    where needed and the element is copied. *)
Lemma Clean_loop_plain rooted (c : ascii) (s tail : string) d out :
  plain (String c s) = true ->
  tail = "" \/ (exists rest, tail = String "/" rest) ->
  Clean_loop rooted false (String c s ++ tail) d out
  = Clean_loop rooted true (s ++ tail) d
      ((if (rooted && negb (String.length out =? 1)) ||
           (negb rooted && negb (String.length out =? 0))
        then out ++ "/" else out) ++ String c "").
Proof.
  unfold plain. intros Hp Htail.
  apply andb_true_iff in Hp as [Hp Hdd]. apply andb_true_iff in Hp as [Hp Hd].
  apply andb_true_iff in Hp as [Hp _].
  apply negb_true_iff, String.eqb_neq in Hdd, Hd.
  simpl in Hp. apply andb_true_iff in Hp as [Hc Hs]. apply negb_true_iff in Hc.
  rewrite append_cons. simpl. rewrite Hc.
  destruct s as [|c1 s].
  - rewrite append_nil_l.
    destruct Htail as [->|[rest ->]]; simpl.
    + destruct (Ascii.eqb_spec c "."); [by subst|]. simpl. done.
    + destruct (Ascii.eqb_spec c "."); [by subst|]. simpl. done.
  - rewrite append_cons. simpl in Hs.
    apply andb_true_iff in Hs as [Hc1 Hs]. apply negb_true_iff in Hc1.
    rewrite Hc1, andb_false_r.
    destruct (Ascii.eqb_spec c "."); simpl; [|done].
    destruct (Ascii.eqb_spec c1 "."); simpl; [|done].
    subst. destruct s as [|c2 s]; [done|].
    rewrite append_cons. simpl in Hs.
    apply andb_true_iff in Hs as [Hc2 Hs]. apply negb_true_iff in Hc2.
    by rewrite Hc2.
Qed.

Lemma rooted_path_shape segs :
  rooted_path segs = "" \/ exists rest, rooted_path segs = String "/" rest.
Proof. destruct segs as [|s segs]; [by left|right]. by eexists. Qed.

Lemma rooted_path_app segs segs' :
  rooted_path (segs ++ segs')%list = rooted_path segs ++ rooted_path segs'.
Proof.
  induction segs as [|s segs IH]; [done|].
  simpl. by rewrite IH, append_cons, append_assoc.
Qed.

Lemma plain_inv s :
  plain s = true -> exists c s', s = String c s' /\ no_slash s = true.
Proof.
  unfold plain. intros Hp.
  apply andb_true_iff in Hp as [Hp _]. apply andb_true_iff in Hp as [Hp _].
  apply andb_true_iff in Hp as [Hp He].
  destruct s as [|c s']; [done|]. by exists c, s'.
Qed.

(** The loop copies a rooted path of plain elements as it stands. *)
Lemma Clean_loop_rooted segs : forall s out,
  forallb plain segs = true -> no_slash s = true -> 2 <= String.length out ->
  Clean_loop true true (s ++ rooted_path segs) 1 out = out ++ s ++ rooted_path segs.
Proof.
  induction segs as [|s2 segs IH]; intros s out Hsegs Hs Hout.
  - simpl. rewrite !append_nil_r. by apply Clean_loop_copy_end.
  - simpl in Hsegs. apply andb_true_iff in Hsegs as [Hs2 Hsegs].
    destruct (plain_inv s2 Hs2) as (c & s2' & -> & Hns).
    simpl rooted_path. rewrite Clean_loop_copy by done.
    rewrite <- append_assoc.
    rewrite Clean_loop_plain by (done || apply rooted_path_shape).
    assert ((String.length (out ++ s) =? 1) = false) as ->.
    { apply Nat.eqb_neq. rewrite length_append. lia. }
    simpl in Hns. apply andb_true_iff in Hns as [_ Hns].
    simpl. rewrite IH; [|done|done|].
    + rewrite !append_assoc. by rewrite append_cons.
    + rewrite !length_append. simpl. lia.
Qed.

(** [Clean] leaves a rooted path of plain elements as it is. *)
Lemma Clean_rooted_path segs :
  segs ≠ [] -> forallb plain segs = true ->
  Clean (rooted_path segs) = rooted_path segs.
Proof.
  intros Hne Hsegs. destruct segs as [|s segs]; [done|]. clear Hne.
  simpl in Hsegs. apply andb_true_iff in Hsegs as [Hs Hsegs].
  destruct (plain_inv s Hs) as (c & s' & -> & Hns).
  simpl rooted_path. unfold Clean. simpl Ascii.eqb. cbv iota.
  rewrite Clean_loop_plain by (done || apply rooted_path_shape).
  simpl in Hns. apply andb_true_iff in Hns as [_ Hns].
  simpl. rewrite Clean_loop_rooted by (done || simpl; lia).
  by rewrite !append_cons.
Qed.

(** [Join] of a first element that is not empty. *)
Lemma Join_nonempty p e : p ≠ "" -> Join [p; e] = Clean (p ++ "/" ++ e).
Proof.
  intros Hp. destruct p as [|c p]; [done|].
  unfold Join. generalize Clean. intros f. simpl.
  by rewrite append_assoc.
Qed.

(** So the pattern of a handler whose prefix is such a path is the prefix
    followed by [/:id]. *)
Lemma Join_rooted_path segs :
  segs ≠ [] -> forallb plain segs = true ->
  Join [rooted_path segs; ":id"] = rooted_path segs ++ "/:id".
Proof.
  intros Hne Hsegs.
  rewrite Join_nonempty by (by destruct segs).
  change ("/" ++ ":id") with (rooted_path [":id"]).
  change "/:id" with (rooted_path [":id"]).
  rewrite <- !rooted_path_app. apply Clean_rooted_path.
  - by destruct segs.
  - by rewrite forallb_app, Hsegs.
Qed.

Lemma Split_rooted_path segs :
  forallb plain segs = true -> Split (rooted_path segs) = ("" :: segs)%list.
Proof.
  induction segs as [|s segs IH]; intros Hsegs; [done|].
  simpl in Hsegs. apply andb_true_iff in Hsegs as [Hs Hsegs].
  destruct (plain_inv s Hs) as (c & s' & -> & Hns).
  specialize (IH Hsegs).
  change (rooted_path (String c s' :: segs))
    with (String "/" (String c s' ++ rooted_path segs)).
  change (Split (String "/" (String c s' ++ rooted_path segs)))
    with ("" :: Split (String c s' ++ rooted_path segs)).
  f_equal.
  destruct (rooted_path_shape segs) as [Hr|[rest Hr]]; rewrite Hr in *.
  - destruct segs; [|done]. rewrite append_nil_r. by apply Split_no_slash.
  - rewrite Split_append_slash, Split_no_slash by done.
    change (Split (String "/" rest)) with ("" :: Split rest) in IH.
    by injection IH as ->.
Qed.

End CleanFacts.

(** ** The matcher *)

Section Matcher.

Local Open Scope nat_scope.
Implicit Types (url pat : list string) (m : RouteParams) (p k u v : string).

Lemma is_param_colon k : is_param (String ":" k) = true.
Proof.
  unfold is_param, index, len. simpl String.length.
  rewrite (proj2 (Z.ltb_lt _ _)) by lia. done.
Qed.

Lemma param_name_colon k : param_name (String ":" k) = k.
Proof.
  unfold param_name, slice_from, len. simpl String.length.
  rewrite (proj2 (Z.leb_le 1 _)) by lia. simpl.
  rewrite Nat.sub_0_r. apply substring_all.
Qed.

(** A pattern segment is a placeholder when it is [:name]. *)
Lemma is_param_spec p : is_param p = true <-> exists k, p = String ":" k.
Proof.
  split; [|intros [k ->]; apply is_param_colon].
  destruct p as [|c p]; [done|].
  unfold is_param, index, len. simpl String.length.
  rewrite (proj2 (Z.ltb_lt _ _)) by lia. simpl.
  intros ->%Ascii.eqb_eq. by exists p.
Qed.

(** What one pass of the loop does to the map. *)
Lemma step_lookup p u m k :
  (if is_param p then <[param_name p := u]> m else m) !! k =
  if decide (p = String ":" k) then Some u else m !! k.
Proof.
  destruct (is_param p) eqn:Hp.
  - apply is_param_spec in Hp as [k' ->]. rewrite param_name_colon.
    rewrite lookup_insert.
    destruct (decide (k' = k)) as [->|Hne].
    + by rewrite decide_True.
    + rewrite decide_False; [done|]. by intros [= ->].
  - rewrite decide_False; [done|].
    intros ->. by rewrite is_param_colon in Hp.
Qed.

(** The entries of the map after the loop: for each name, the request
    segment at the last index in range where the pattern has [:name]; what
    the map held before the loop stays where no such index is. *)
Lemma NewContext_loop_lookup url pat : forall i m k v,
  NewContext_loop url i pat m !! k = Some v <->
  (exists j, pat !! j = Some (String ":" k) /\ url !! (i + j) = Some v /\
     forall j', j < j' -> pat !! j' = Some (String ":" k) -> url !! (i + j') = None)
  \/ (m !! k = Some v /\
      forall j, pat !! j = Some (String ":" k) -> url !! (i + j) = None).
Proof.
  induction pat as [|p pat IH]; intros i m k v; simpl.
  { split; [intros Hm; right; by split|].
    intros [(j & Hj & _)|[Hm _]]; [by rewrite lookup_nil in Hj|done]. }
  destruct (url !! i) as [u|] eqn:Hu.
  2: { assert (Hge : forall j, url !! (i + j) = None).
       { intros j. apply lookup_ge_None. apply lookup_ge_None in Hu. lia. }
       split; [intros Hm; right; by split|].
       intros [(j & _ & Hj & _)|[Hm _]]; [by rewrite Hge in Hj|done]. }
  rewrite IH, step_lookup. split.
  - intros [(j & Hp & Hv & Hlast)|[Hm Hnone]].
    + left. exists (S j). rewrite Nat.add_succ_r. split_and!; [done..|].
      intros [|j'] Hlt Hp'; [lia|]. rewrite Nat.add_succ_r.
      apply Hlast; [lia|done].
    + destruct (decide (p = String ":" k)) as [->|Hne].
      * left. exists 0. rewrite Nat.add_0_r. split_and!; [done|congruence|].
        intros [|j'] Hlt Hp'; [lia|]. rewrite Nat.add_succ_r. by apply Hnone.
      * right. split; [done|].
        intros [|j] Hp'; [by injection Hp'|].
        rewrite Nat.add_succ_r. by apply Hnone.
  - intros [(j & Hp & Hv & Hlast)|[Hm Hnone]].
    + destruct j as [|j].
      * injection Hp as ->. rewrite Nat.add_0_r in Hv.
        right. rewrite decide_True by done. split; [congruence|].
        intros j Hp'. specialize (Hlast (S j)).
        rewrite Nat.add_succ_r in Hlast. apply Hlast; [lia|done].
      * left. exists j. rewrite Nat.add_succ_r in Hv. split_and!; [done..|].
        intros j' Hlt Hp'. specialize (Hlast (S j')).
        rewrite Nat.add_succ_r in Hlast. apply Hlast; [lia|done].
    + right. destruct (decide (p = String ":" k)) as [->|Hne].
      * specialize (Hnone 0 eq_refl). rewrite Nat.add_0_r in Hnone. congruence.
      * split; [done|]. intros j Hp'. specialize (Hnone (S j) Hp').
        by rewrite Nat.add_succ_r in Hnone.
Qed.

(** The same for the whole matcher, which starts from the empty map. *)
Lemma match_params_lookup path pattern k v :
  match_params path pattern !! k = Some v <->
  exists j, Split pattern !! j = Some (String ":" k) /\ Split path !! j = Some v /\
    forall j', j < j' -> Split pattern !! j' = Some (String ":" k) ->
               Split path !! j' = None.
Proof.
  unfold match_params. rewrite NewContext_loop_lookup. split.
  - intros [H|[H _]]; [done|by rewrite lookup_empty in H].
  - intros H. by left.
Qed.


Lemma FromContext_NewContext ctx r pattern :
  FromContext (NewContext ctx r pattern) = (match_params (URL_Path r) pattern, true).
Proof. reflexivity. Qed.

End Matcher.

(** ** Dispatch *)

Section Dispatch.

Context {T : Type} `{Resource T}.
Implicit Types (h : resourceHandler T) (w : ResponseWriter) (r : Request).

(** [ServeHTTP] panics on the empty path, and only there. *)
Lemma ServeHTTP_None h w r : ServeHTTP h w r = None <-> URL_Path r = "".
Proof.
  rewrite <- trimPath_None. unfold ServeHTTP.
  destruct (trimPath (URL_Path r)) as [p|]; simpl; [|done].
  split; [|done].
  by repeat match goal with |- context [if ?b then _ else _] => destruct b end.
Qed.

Lemma ServeHTTP_not_found h w r p :
  trimPath (URL_Path r) = Some p -> HasPrefix p (prefix h) = false ->
  ServeHTTP h w r = Some (resource h, http_NotFound w r).
Proof. intros Htrim Hpre. by dispatch Htrim Hpre. Qed.

Lemma ServeHTTP_Index h w r :
  trimPath (URL_Path r) = Some (prefix h) -> Method r = "GET" ->
  ServeHTTP h w r = Some (Index (resource h) w r).
Proof.
  intros Htrim Hm.
  pose proof (HasPrefix_append (prefix h) "") as Hpre.
  pose proof (TrimPrefix_append (prefix h) "") as Hs.
  rewrite append_nil_r in Hpre, Hs.
  dispatch Htrim Hpre. by rewrite Hm, Hs.
Qed.

Lemma ServeHTTP_Show h w r t :
  trimPath (URL_Path r) = Some (prefix h ++ t) -> t ≠ "" -> Method r = "GET" ->
  ServeHTTP h w r =
  Some (Show (resource h) w
          (WithContext r (NewContext (Ctx r) r (GoPath.Join [prefix h; ":id"])))).
Proof.
  intros Htrim Ht Hm.
  pose proof (HasPrefix_append (prefix h) t) as Hpre.
  dispatch Htrim Hpre. rewrite Hm, TrimPrefix_append. simpl.
  by rewrite (proj2 (Z.ltb_lt _ _) (len_pos t Ht)).
Qed.

Lemma ServeHTTP_Create h w r p :
  trimPath (URL_Path r) = Some p -> HasPrefix p (prefix h) = true ->
  Method r = "POST" ->
  ServeHTTP h w r = Some (Create (resource h) w r).
Proof. intros Htrim Hpre Hm. dispatch Htrim Hpre. by rewrite Hm. Qed.

Lemma ServeHTTP_Update h w r p :
  trimPath (URL_Path r) = Some p -> HasPrefix p (prefix h) = true ->
  Method r = "PUT" ->
  ServeHTTP h w r =
  Some (Update (resource h) w
          (WithContext r (NewContext (Ctx r) r (GoPath.Join [prefix h; ":id"])))).
Proof. intros Htrim Hpre Hm. dispatch Htrim Hpre. by rewrite Hm. Qed.

Lemma ServeHTTP_Destroy h w r p :
  trimPath (URL_Path r) = Some p -> HasPrefix p (prefix h) = true ->
  Method r = "DELETE" ->
  ServeHTTP h w r =
  Some (Destroy (resource h) w
          (WithContext r (NewContext (Ctx r) r (GoPath.Join [prefix h; ":id"])))).
Proof. intros Htrim Hpre Hm. dispatch Htrim Hpre. by rewrite Hm. Qed.

Lemma ServeHTTP_method_not_allowed h w r p :
  trimPath (URL_Path r) = Some p -> HasPrefix p (prefix h) = true ->
  Method r ≠ "GET" -> Method r ≠ "POST" -> Method r ≠ "PUT" ->
  Method r ≠ "DELETE" ->
  ServeHTTP h w r =
  Some (resource h, http_Error w "Method Not Allowed" StatusMethodNotAllowed).
Proof.
  intros Htrim Hpre Hget Hpost Hput Hdel. dispatch Htrim Hpre.
  apply String.eqb_neq in Hget, Hpost, Hput, Hdel.
  by rewrite Hget, Hpost, Hput, Hdel.
Qed.

(** A context that holds nothing under [paramsKey] yields no params. *)
Lemma FromContext_absent ctx :
  Value ctx paramsKey = None -> FromContext ctx = (∅, false).
Proof. unfold FromContext. by intros ->. Qed.

End Dispatch.

(** ** Item routes: the id is the first segment after the prefix *)

Section ItemRoutes.

Implicit Types (P seg tail t : string).

(** Against the pattern [P/:id], a path [P/tail] matches [id] with the
    first segment of [tail]. *)
Lemma match_params_id P seg more tail :
  Split tail = seg :: more ->
  match_params (P ++ String "/" tail) (P ++ "/:id") !! "id" = Some seg.
Proof.
  intros Htail. apply match_params_lookup.
  exists (List.length (Split P)).
  change (P ++ "/:id") with (P ++ String "/" ":id").
  rewrite !Split_append_slash, Htail. change (Split ":id") with [":id"].
  split_and!.
  - by apply list_lookup_middle.
  - by apply list_lookup_middle.
  - intros j' Hlt Hj'. apply lookup_lt_Some in Hj'.
    rewrite length_app in Hj'. simpl in Hj'. lia.
Qed.

(** Against [P/:id], a path [P ++ t] that continues the last segment of
    [P] matches no [id], unless [:id] is a segment of [P] itself. *)
Lemma match_params_no_separator P t :
  ":id" ∉ Split P -> no_slash t = true ->
  match_params (P ++ t) (P ++ "/:id") !! "id" = None.
Proof.
  intros Hid Ht. apply eq_None_not_Some. intros [v Hv].
  apply match_params_lookup in Hv as (j & Hpat & Hurl & _).
  change (P ++ "/:id") with (P ++ String "/" ":id") in Hpat.
  rewrite Split_append_slash in Hpat.
  apply lookup_lt_Some in Hurl.
  rewrite Split_append_no_slash_length in Hurl by done.
  rewrite lookup_app_l in Hpat by done.
  apply Hid. by eapply list_elem_of_lookup_2.
Qed.

(** So does the path [P] itself. *)
Lemma match_params_no_id P :
  ":id" ∉ Split P -> match_params P (P ++ "/:id") !! "id" = None.
Proof.
  intros Hid. rewrite <- (append_nil_r P) at 1.
  by apply match_params_no_separator.
Qed.

End ItemRoutes.

(** ** Registration *)

Section Registration.

Context {T : Type} `{Resource T}.

Lemma mux_Handle_Some (m m' : gmap string nat) (pattern : string) (l : nat) :
  mux_Handle m pattern l = Some m' ->
  pattern ≠ "" /\ m !! pattern = None /\ m' = <[pattern := l]> m.
Proof.
  unfold mux_Handle.
  destruct (String.eqb_spec pattern "") as [|Hne]; [done|].
  destruct (m !! pattern); [done|]. by intros [= <-].
Qed.

(** [NewResourceHandler] panics on the empty prefix and on ["/"], which it
    empties before [trimPath] sees it; nowhere else. *)
Lemma NewResourceHandler_None (pre : string) (res : T) :
  NewResourceHandler pre res = None <-> pre = "" \/ pre = "/".
Proof.
  split; [|by intros [->| ->]].
  intros Hnew. destruct (decide (pre = "")) as [|Hne]; [by left|right].
  destruct (string_last pre Hne) as (t & c & ->).
  unfold NewResourceHandler in Hnew. rewrite index_last in Hnew. simpl in Hnew.
  destruct (Ascii.eqb_spec c "/") as [->|Hc].
  - rewrite slice_to_last in Hnew. simpl in Hnew.
    destruct (trimPath t) eqn:Ht; [done|].
    by apply trimPath_None in Ht as ->.
  - simpl in Hnew. rewrite trimPath_snoc in Hnew.
    by destruct (Ascii.eqb c "/").
Qed.

(** A registration goes through when the trimmed pattern is neither empty
    nor ["/"] and neither of its two entries is taken. *)
Lemma HandleResource_Some (heap : Heap T) (router : Router) (pattern P : string)
    (res : T) :
  trimPath pattern = Some P -> P ≠ "" -> P ≠ "/" ->
  mux router !! P = None -> mux router !! (P ++ "/") = None ->
  is_Some (HandleResource heap router pattern res).
Proof.
  intros HP Hne Hroot HfreshP Hfresh'. unfold HandleResource.
  rewrite HP. simpl.
  destruct (NewResourceHandler P res) as [h|] eqn:Hh.
  2: { apply NewResourceHandler_None in Hh as [|]; done. }
  simpl. unfold mux_Handle.
  rewrite (proj2 (String.eqb_neq _ _) Hne), HfreshP. simpl.
  assert (Hne' : P ++ "/" ≠ "") by (by destruct P).
  rewrite (proj2 (String.eqb_neq _ _) Hne').
  rewrite lookup_insert_ne, Hfresh' by apply append_slash_ne.
  by eexists.
Qed.

(** An entry serves with the handler object it refers to. *)
Lemma serve_entry_lookup (heap : Heap T) (router : Router) (pattern : string)
    (l : nat) (hd : Handler T) (w : ResponseWriter) (r : Request) :
  mux router !! pattern = Some l -> heap !! l = Some hd ->
  serve_entry heap router pattern w r = Handler_ServeHTTP hd w r.
Proof.
  unfold serve_entry. intros Hmux Hheap.
  rewrite Hmux. simpl. by rewrite Hheap.
Qed.

End Registration.

(** ** The cases of the test suite

    [TestResourceHandler]: the handler for [/posts] over the table of the
    test, and a few requests more. *)

Example TestResourceHandler :
  let h := recording "/posts" in
  let ok := [WriteHeader 200] in
  NewResourceHandler "/posts" [] = Some h /\
  observed h (NewRequest "GET" "/posts") = Some ([(AIndex, false, None)], ok) /\
  observed h (NewRequest "GET" "/posts/1") = Some ([(AShow, true, Some "1")], ok) /\
  observed h (NewRequest "POST" "/posts") = Some ([(ACreate, false, None)], ok) /\
  observed h (NewRequest "PUT" "/posts/1") = Some ([(AUpdate, true, Some "1")], ok) /\
  observed h (NewRequest "DELETE" "/posts/1") = Some ([(ADestroy, true, Some "1")], ok) /\
  observed h (NewRequest "GET" "/posts/23/comments")
    = Some ([(AShow, true, Some "23")], ok) /\
  observed h (NewRequest "GET" "/posts/23/foo")
    = Some ([(AShow, true, Some "23")], ok) /\
  observed h (NewRequest "GET" "/foo")
    = Some ([], http_NotFound [] (NewRequest "GET" "/foo")).
Proof. by vm_compute. Qed.

Example more_requests :
  let h := recording "/posts" in
  let ok := [WriteHeader 200] in
  observed h (NewRequest "GET" "/posts/") = Some ([(AIndex, false, None)], ok) /\
  observed h (NewRequest "GET" "/posts/1/") = Some ([(AShow, true, Some "1")], ok) /\
  observed h (NewRequest "GET" "/posts//x") = Some ([(AShow, true, Some "")], ok) /\
  observed h (NewRequest "PUT" "/posts") = Some ([(AUpdate, true, None)], ok) /\
  observed h (NewRequest "PUT" "/posts/") = Some ([(AUpdate, true, Some "")], ok) /\
  observed h (NewRequest "POST" "/posts/1/x") = Some ([(ACreate, false, None)], ok) /\
  observed h (NewRequest "PATCH" "/posts/1")
    = Some ([], http_Error [] "Method Not Allowed" 405) /\
  observed h (NewRequest "get" "/posts")
    = Some ([], http_Error [] "Method Not Allowed" 405) /\
  observed h (NewRequest "GET" "") = None.
Proof. by vm_compute. Qed.

(** What [NewResourceHandler] makes of trailing slashes: it drops two at
    most, and panics when none but slashes are left to trim.  The
    registration of [TestResourceRouter] goes through; the root cannot be
    registered. *)
Example registrations :
  NewResourceHandler "/posts/" [] = Some (recording "/posts") /\
  NewResourceHandler "/posts//" [] = Some (recording "/posts") /\
  NewResourceHandler "/posts///" [] = Some (recording "/posts/") /\
  NewResourceHandler "//" [] = Some (recording "") /\
  NewResourceHandler "/" ([] : list (Action * Request)) = None /\
  is_Some (HandleResource [] NewRouter "/posts/" ([] : list (Action * Request))) /\
  HandleResource [] NewRouter "/" ([] : list (Action * Request)) = None /\
  HandleResource [] NewRouter "//" ([] : list (Action * Request)) = None.
Proof.
  split_and!; try reflexivity.
  by apply (HandleResource_Some _ _ _ "/posts").
Qed.

(** * The claims *)

(** C1 (as amended).  Let the registered prefix [P] be one that [path.Join]
    leaves as it is, so that the pattern it builds is [P/:id].  For a request
    whose path is [P], a slash, a first segment [seg] that is not empty, and
    then nothing or further segments: GET dispatches to [Show], PUT to
    [Update] and DELETE to [Destroy], each with the request in a context
    whose [RouteParams] map ["id"] to [seg]. *)
Theorem item_id_first_segment {T : Type} `{Resource T}
    (h : resourceHandler T) (w : ResponseWriter) (r : Request) (seg rest : string) :
  GoPath.Join [prefix h; ":id"] = prefix h ++ "/:id" ->
  URL_Path r = prefix h ++ "/" ++ seg ++ rest ->
  seg ≠ "" -> no_slash seg = true ->
  rest = "" \/ (exists rest', rest = String "/" rest') ->
  let r' := WithContext r (NewContext (Ctx r) r (GoPath.Join [prefix h; ":id"])) in
  (Method r = "GET" -> ServeHTTP h w r = Some (Show (resource h) w r')) /\
  (Method r = "PUT" -> ServeHTTP h w r = Some (Update (resource h) w r')) /\
  (Method r = "DELETE" -> ServeHTTP h w r = Some (Destroy (resource h) w r')) /\
  exists params, FromContext (Ctx r') = (params, true) /\ params !! "id" = Some seg.
Proof.
  intros HJ Hpath Hseg Hns Hrest r'.
  change (prefix h ++ "/" ++ seg ++ rest)
    with (prefix h ++ String "/" (seg ++ rest)) in Hpath.
  assert (Htail : seg ++ rest ≠ "") by (by destruct seg).
  destruct (trimPath_append (prefix h ++ "/") _ Htail) as [t Htrim].
  rewrite !append_assoc in Htrim.
  change ("/" ++ seg ++ rest) with (String "/" (seg ++ rest)) in Htrim.
  change ("/" ++ t) with (String "/" t) in Htrim.
  rewrite <- Hpath in Htrim.
  split_and!.
  - intros Hm. by apply (ServeHTTP_Show h w r (String "/" t)).
  - intros Hm. apply (ServeHTTP_Update h w r _ Htrim); [apply HasPrefix_append|done].
  - intros Hm. apply (ServeHTTP_Destroy h w r _ Htrim); [apply HasPrefix_append|done].
  - eexists. split; [apply FromContext_NewContext|].
    destruct (Split_first_segment seg rest Hns Hrest) as [more Hmore].
    rewrite HJ, Hpath. by eapply match_params_id.
Qed.

Lemma item_id_first_segment_witness :
  let h := recording "/posts" in
  let r := NewRequest "GET" "/posts/23/comments" in
  let r' := WithContext r (NewContext (Ctx r) r (GoPath.Join [prefix h; ":id"])) in
  GoPath.Join [prefix h; ":id"] = prefix h ++ "/:id" /\
  URL_Path r = prefix h ++ "/" ++ "23" ++ "/comments" /\
  "23" ≠ "" /\ no_slash "23" = true /\
  (exists rest', "/comments" = String "/" rest') /\
  ServeHTTP h [] r = Some (Show (resource h) [] r') /\
  exists params, FromContext (Ctx r') = (params, true) /\ params !! "id" = Some "23".
Proof.
  assert (Hseg : "23" ≠ "") by discriminate.
  assert (Hrest : exists rest', "/comments" = String "/" rest')
    by (exists "comments"; reflexivity).
  pose proof (item_id_first_segment (recording "/posts") []
                (NewRequest "GET" "/posts/23/comments") "23" "/comments"
                eq_refl eq_refl Hseg eq_refl (or_intror Hrest))
    as (Hget & _ & _ & Hid).
  split_and!; [reflexivity|reflexivity|exact Hseg|reflexivity|exact Hrest
              |exact (Hget eq_refl)|exact Hid].
Defined.

(** C1, as stated, fails for a prefix that [path.Join] cleans: registered as
    [/v1//posts], the handler builds the pattern [/v1/posts/:id], one segment
    shorter than the prefix, and the request [/v1//posts/7] reaches [Show]
    with ["id"] matched to [posts], not to the first segment [7]. *)
Lemma item_id_unclean_prefix :
  let h := recording "/v1//posts" in
  let r := NewRequest "GET" "/v1//posts/7" in
  let r' := WithContext r (NewContext (Ctx r) r (GoPath.Join [prefix h; ":id"])) in
  NewResourceHandler "/v1//posts" [] = Some h /\
  URL_Path r = prefix h ++ "/" ++ "7" ++ "" /\
  ServeHTTP h [] r = Some (Show (resource h) [] r') /\
  GoPath.Join [prefix h; ":id"] = "/v1/posts/:id" /\
  (FromContext (Ctx r')).1 !! "id" = Some "posts" /\
  (FromContext (Ctx r')).1 !! "id" ≠ Some "7".
Proof. by vm_compute. Qed.


(** C3 (as amended).  Let the registered prefix [P] be trimmed already: not
    empty and without a trailing slash.  A GET request whose path is [P] or
    [P/] dispatches to [Index] with the request as it came, no params
    attached: for a request that arrives without route params, [FromContext]
    finds none. *)
Theorem index_at_collection {T : Type} `{Resource T}
    (h : resourceHandler T) (w : ResponseWriter) (r : Request) :
  trimPath (prefix h) = Some (prefix h) ->
  URL_Path r = prefix h \/ URL_Path r = prefix h ++ "/" ->
  Method r = "GET" ->
  ServeHTTP h w r = Some (Index (resource h) w r) /\
  (Value (Ctx r) paramsKey = None -> FromContext (Ctx r) = (∅, false)).
Proof.
  intros HP Hpath Hm. split; [|apply FromContext_absent].
  apply ServeHTTP_Index; [|done].
  destruct Hpath as [->| ->]; [done|apply trimPath_slash].
Qed.

Lemma index_at_collection_witness :
  let h := recording "/posts" in
  let r := NewRequest "GET" "/posts/" in
  trimPath (prefix h) = Some (prefix h) /\
  URL_Path r = prefix h ++ "/" /\
  ServeHTTP h [] r = Some (Index (resource h) [] r) /\
  FromContext (Ctx r) = (∅, false).
Proof.
  pose proof (index_at_collection (recording "/posts") []
                (NewRequest "GET" "/posts/") eq_refl (or_intror eq_refl) eq_refl)
    as [Hidx Hctx].
  split_and!; [reflexivity|reflexivity|exact Hidx|exact (Hctx eq_refl)].
Defined.

(** C3, as stated, fails for a prefix that keeps a trailing slash: registered
    as [/posts///], the handler's prefix is [/posts/] (two slashes are
    dropped, not all), and GET [/posts/], the prefix exactly, is trimmed to
    [/posts] and answered not found. *)
Lemma index_untrimmed_prefix :
  let h := recording "/posts/" in
  let r := NewRequest "GET" "/posts/" in
  NewResourceHandler "/posts///" [] = Some h /\
  URL_Path r = prefix h /\
  ServeHTTP h [] r = Some (resource h, http_NotFound [] r) /\
  ServeHTTP h [] r ≠ Some (Index (resource h) [] r).
Proof. by vm_compute. Qed.

(** C4 (as amended).  Let the registered prefix [P] be one that [path.Join]
    leaves as it is, with no segment [:id] of its own.  A PUT or DELETE
    request whose trimmed path is [P] dispatches to [Update] or [Destroy]
    with a context built against [P/:id], and reading ["id"] from the
    attached [RouteParams] gives the empty string: the map has no ["id"]
    entry when the path is [P], and binds ["id"] to [""] when it is [P/]. *)
Theorem update_destroy_at_collection {T : Type} `{Resource T}
    (h : resourceHandler T) (w : ResponseWriter) (r : Request) :
  GoPath.Join [prefix h; ":id"] = prefix h ++ "/:id" ->
  ":id" ∉ Split (prefix h) ->
  trimPath (URL_Path r) = Some (prefix h) ->
  let r' := WithContext r (NewContext (Ctx r) r (GoPath.Join [prefix h; ":id"])) in
  (Method r = "PUT" -> ServeHTTP h w r = Some (Update (resource h) w r')) /\
  (Method r = "DELETE" -> ServeHTTP h w r = Some (Destroy (resource h) w r')) /\
  exists params,
    FromContext (Ctx r') = (params, true) /\
    RouteParams_get params "id" = "" /\
    (URL_Path r = prefix h -> params !! "id" = None) /\
    (URL_Path r = prefix h ++ "/" -> params !! "id" = Some "").
Proof.
  intros HJ Hid Htrim r'.
  pose proof (HasPrefix_append (prefix h) "") as Hpre.
  rewrite append_nil_r in Hpre.
  split_and!.
  - intros Hm. by apply (ServeHTTP_Update h w r _ Htrim).
  - intros Hm. by apply (ServeHTTP_Destroy h w r _ Htrim).
  - eexists. split; [apply FromContext_NewContext|]. rewrite HJ.
    destruct (trimPath_Some _ _ Htrim) as [Hpath|Hpath]; rewrite Hpath.
    + assert (Hsome : match_params (prefix h ++ "/") (prefix h ++ "/:id") !! "id"
                      = Some "") by (by eapply (match_params_id _ _ _ "")).
      unfold RouteParams_get. rewrite Hsome. split_and!; [done| |done].
      intros Hbad. by destruct (append_slash_ne (prefix h)).
    + pose proof (match_params_no_id _ Hid) as Hnone.
      unfold RouteParams_get. rewrite Hnone. split_and!; [done..|].
      intros Hbad. by destruct (append_slash_ne (prefix h)).
Qed.

Lemma update_destroy_at_collection_witness :
  let h := recording "/posts" in
  let r := NewRequest "PUT" "/posts" in
  let r' := WithContext r (NewContext (Ctx r) r (GoPath.Join [prefix h; ":id"])) in
  GoPath.Join [prefix h; ":id"] = prefix h ++ "/:id" /\
  (":id" ∉ Split (prefix h)) /\
  trimPath (URL_Path r) = Some (prefix h) /\
  ServeHTTP h [] r = Some (Update (resource h) [] r') /\
  exists params,
    FromContext (Ctx r') = (params, true) /\
    RouteParams_get params "id" = "" /\ params !! "id" = None.
Proof.
  assert (Hid : ":id" ∉ Split "/posts").
  { intros Hin. repeat (apply elem_of_cons in Hin as [Hin|Hin]; [discriminate|]).
    by apply elem_of_nil in Hin. }
  pose proof (update_destroy_at_collection (recording "/posts") []
                (NewRequest "PUT" "/posts") eq_refl Hid eq_refl)
    as (Hput & _ & params & Hctx & Hget & Hnone & _).
  split_and!; [reflexivity|exact Hid|reflexivity|exact (Hput eq_refl)|].
  exists params. split_and!; [exact Hctx|exact Hget|exact (Hnone eq_refl)].
Defined.

(** C4, as stated, fails for a prefix that [path.Join] cleans: registered as
    [/v1//posts], the pattern is [/v1/posts/:id], and PUT [/v1//posts], the
    prefix exactly, reaches [Update] with ["id"] bound to [posts]. *)
Lemma update_unclean_prefix :
  let h := recording "/v1//posts" in
  let r := NewRequest "PUT" "/v1//posts" in
  let r' := WithContext r (NewContext (Ctx r) r (GoPath.Join [prefix h; ":id"])) in
  NewResourceHandler "/v1//posts" [] = Some h /\
  trimPath (URL_Path r) = Some (prefix h) /\
  ServeHTTP h [] r = Some (Update (resource h) [] r') /\
  RouteParams_get (FromContext (Ctx r')).1 "id" = "posts" /\
  RouteParams_get (FromContext (Ctx r')).1 "id" ≠ "".
Proof. by vm_compute. Qed.

(** C5.  A request whose trimmed path does not begin with the handler's
    prefix is answered not found, whatever its method, and no method of the
    resource runs: for every implementation the resource is returned as it
    was, and the recording resource logs no call. *)
Theorem not_found_outside_prefix {T : Type} `{Resource T}
    (h : resourceHandler T) (w : ResponseWriter) (r : Request) (p : string) :
  trimPath (URL_Path r) = Some p ->
  HasPrefix p (prefix h) = false ->
  ServeHTTP h w r = Some (resource h, http_NotFound w r) /\
  forall log : list (Action * Request),
    ServeHTTP {| resource := log; prefix := prefix h |} w r
    = Some (log, http_NotFound w r).
Proof.
  intros Htrim Hpre. split; [by eapply ServeHTTP_not_found|].
  intros log. by eapply (ServeHTTP_not_found (T:=list (Action * Request))).
Qed.

Lemma not_found_outside_prefix_witness :
  let h := recording "/posts" in
  let r := NewRequest "GET" "/other" in
  trimPath (URL_Path r) = Some "/other" /\
  HasPrefix "/other" (prefix h) = false /\
  ServeHTTP h [] r = Some ([], http_NotFound [] r).
Proof.
  pose proof (not_found_outside_prefix (recording "/posts") []
                (NewRequest "GET" "/other") "/other" eq_refl eq_refl) as [Hnf _].
  split_and!; [reflexivity|reflexivity|exact Hnf].
Defined.

(** C6.  A request that passes the prefix check with a method other than
    GET, POST, PUT and DELETE is answered method not allowed, and no method
    of the resource runs: for every implementation the resource is returned
    as it was, and the recording resource logs no call. *)
Theorem method_not_allowed {T : Type} `{Resource T}
    (h : resourceHandler T) (w : ResponseWriter) (r : Request) (p : string) :
  trimPath (URL_Path r) = Some p ->
  HasPrefix p (prefix h) = true ->
  Method r ∉ ["GET"; "POST"; "PUT"; "DELETE"] ->
  ServeHTTP h w r
  = Some (resource h, http_Error w "Method Not Allowed" StatusMethodNotAllowed) /\
  forall log : list (Action * Request),
    ServeHTTP {| resource := log; prefix := prefix h |} w r
    = Some (log, http_Error w "Method Not Allowed" StatusMethodNotAllowed).
Proof.
  intros Htrim Hpre Hm.
  assert (Method r ≠ "GET" /\ Method r ≠ "POST" /\ Method r ≠ "PUT" /\
          Method r ≠ "DELETE") as (Hget & Hpost & Hput & Hdel).
  { split_and!; intros Heq; apply Hm; rewrite Heq; set_solver. }
  split; [by eapply ServeHTTP_method_not_allowed|].
  intros log.
  by eapply (ServeHTTP_method_not_allowed (T:=list (Action * Request))).
Qed.

Lemma method_not_allowed_witness :
  let h := recording "/posts" in
  let r := NewRequest "PATCH" "/posts/1" in
  trimPath (URL_Path r) = Some "/posts/1" /\
  HasPrefix "/posts/1" (prefix h) = true /\
  (Method r ∉ ["GET"; "POST"; "PUT"; "DELETE"]) /\
  ServeHTTP h [] r
  = Some ([], http_Error [] "Method Not Allowed" StatusMethodNotAllowed).
Proof.
  assert (Hm : "PATCH" ∉ ["GET"; "POST"; "PUT"; "DELETE"]).
  { intros Hin. repeat (apply elem_of_cons in Hin as [Hin|Hin]; [discriminate|]).
    by apply elem_of_nil in Hin. }
  pose proof (method_not_allowed (recording "/posts") []
                (NewRequest "PATCH" "/posts/1") "/posts/1" eq_refl eq_refl Hm)
    as [Hna _].
  split_and!; [reflexivity|reflexivity|exact Hm|exact Hna].
Defined.

(** C7.  A pattern that [HandleResource] registers makes exactly two new
    multiplexer entries, the trimmed pattern [P] and its subtree [P/], and
    both refer to the one handler object allocated for it; a request served
    through either entry is served by that same handler, so the params
    extracted are the same. *)
Theorem HandleResource_two_entries {T : Type} `{Resource T}
    (heap heap' : Heap T) (router router' : Router) (pattern : string) (res : T) :
  HandleResource heap router pattern res = Some (heap', router') ->
  exists (P : string) (h : resourceHandler T) (l : nat),
    trimPath pattern = Some P /\
    NewResourceHandler P res = Some h /\
    l = List.length heap /\
    heap' = (heap ++ [ResourceH h])%list /\
    mux router !! P = None /\
    mux router !! (P ++ "/") = None /\
    mux router' = <[P ++ "/" := l]> (<[P := l]> (mux router)) /\
    size (mux router') = S (S (size (mux router))) /\
    mux router' !! P = Some l /\
    mux router' !! (P ++ "/") = Some l /\
    heap' !! l = Some (ResourceH h) /\
    (forall w r, serve_entry heap' router' P w r
                 = Handler_ServeHTTP (ResourceH h) w r) /\
    (forall w r, serve_entry heap' router' (P ++ "/") w r
                 = serve_entry heap' router' P w r).
Proof.
  unfold HandleResource. intros Hreg.
  destruct (trimPath pattern) as [P|] eqn:HP; [|done]. simpl in Hreg.
  destruct (NewResourceHandler P res) as [h|] eqn:Hh; [|done]. simpl in Hreg.
  destruct (mux_Handle (mux router) P (List.length heap)) as [m1|] eqn:H1;
    [|done]. simpl in Hreg.
  destruct (mux_Handle m1 (P ++ "/") (List.length heap)) as [m2|] eqn:H2;
    [|done]. simpl in Hreg.
  injection Hreg as <- <-. simpl.
  apply mux_Handle_Some in H1 as (_ & HfreshP & ->).
  apply mux_Handle_Some in H2 as (_ & Hfresh' & ->).
  pose proof (append_slash_ne P) as Hne.
  rewrite lookup_insert_ne in Hfresh' by done.
  assert (Hl : (heap ++ [ResourceH h])%list !! List.length heap = Some (ResourceH h))
    by (by apply list_lookup_middle).
  assert (HatP : <[P ++ "/" := List.length heap]> (<[P := List.length heap]> (mux router))
                 !! P = Some (List.length heap)).
  { rewrite lookup_insert_ne by done. apply lookup_insert_eq. }
  exists P, h, (List.length heap). split_and!; try done.
  - rewrite !map_size_insert_None; [done..|]. by rewrite lookup_insert_ne.
  - apply lookup_insert_eq.
  - intros w r.
    by rewrite (serve_entry_lookup _ _ _ (List.length heap) (ResourceH h)).
  - intros w r.
    rewrite !(serve_entry_lookup _ _ _ (List.length heap) (ResourceH h)); try done.
    apply lookup_insert_eq.
Qed.

Lemma HandleResource_two_entries_witness :
  let h := recording "/posts" in
  let heap' := [ResourceH h] in
  let router' := {| mux := <["/posts/" := 0%nat]> (<["/posts" := 0%nat]> ∅) |} in
  HandleResource [] NewRouter "/posts/" [] = Some (heap', router') /\
  mux router' !! "/posts" = Some 0%nat /\
  mux router' !! "/posts/" = Some 0%nat /\
  size (mux router') = 2%nat /\
  forall w r, serve_entry heap' router' "/posts/" w r
              = serve_entry heap' router' "/posts" w r.
Proof.
  assert (Hreg : HandleResource [] NewRouter "/posts/" []
                 = Some ([ResourceH (recording "/posts")],
                         {| mux := <["/posts/" := 0%nat]> (<["/posts" := 0%nat]> ∅) |}))
    by reflexivity.
  pose proof (HandleResource_two_entries _ _ _ _ _ _ Hreg)
    as (P & h & l & HP & Hh & Hl & Hheap & _ & _ & _ & Hsize & HatP & HatP' & _ & _ & Hsame).
  injection HP as <-. subst l.
  split_and!; [exact Hreg|exact HatP|exact HatP'|exact Hsize|exact Hsame].
Defined.

(** C8 (as amended).  A POST request whose trimmed path begins with the
    prefix dispatches to [Create], once, whatever follows the prefix: the
    recording resource logs the one call.  [Create] gets the request as it
    came, the handler attaching no params: for a request that arrives
    without route params, [FromContext] finds none. *)
Theorem create_on_post {T : Type} `{Resource T}
    (h : resourceHandler T) (w : ResponseWriter) (r : Request) (p : string) :
  trimPath (URL_Path r) = Some p ->
  HasPrefix p (prefix h) = true ->
  Method r = "POST" ->
  ServeHTTP h w r = Some (Create (resource h) w r) /\
  (forall log : list (Action * Request),
     exists w', ServeHTTP {| resource := log; prefix := prefix h |} w r
                = Some ((log ++ [(ACreate, r)])%list, w')) /\
  (Value (Ctx r) paramsKey = None -> FromContext (Ctx r) = (∅, false)).
Proof.
  intros Htrim Hpre Hm. split_and!.
  - by eapply ServeHTTP_Create.
  - intros log. eexists.
    by rewrite (ServeHTTP_Create (T:=list (Action * Request)) _ w r p).
  - apply FromContext_absent.
Qed.

Lemma create_on_post_witness :
  let h := recording "/posts" in
  let r := NewRequest "POST" "/posts/1/comments" in
  trimPath (URL_Path r) = Some "/posts/1/comments" /\
  HasPrefix "/posts/1/comments" (prefix h) = true /\
  ServeHTTP h [] r = Some (Create (resource h) [] r) /\
  FromContext (Ctx r) = (∅, false).
Proof.
  pose proof (create_on_post (recording "/posts") []
                (NewRequest "POST" "/posts/1/comments") "/posts/1/comments"
                eq_refl eq_refl eq_refl) as (Hcreate & _ & Hctx).
  split_and!; [reflexivity|reflexivity|exact Hcreate|exact (Hctx eq_refl)].
Defined.

(** C8, as stated, fails for a request that arrives with params: the handler
    hands the request to [Create] as it came, so after an outer
    [NewContext] (here against [/:section]) [FromContext] finds params
    inside [Create]. *)
Lemma create_keeps_arrived_params :
  let h := recording "/posts" in
  let r0 := NewRequest "POST" "/posts" in
  let r := WithContext r0 (NewContext (Ctx r0) r0 "/:section") in
  trimPath (URL_Path r) = Some "/posts" /\
  HasPrefix "/posts" (prefix h) = true /\
  Method r = "POST" /\
  ServeHTTP h [] r = Some (Create (resource h) [] r) /\
  (FromContext (Ctx r)).2 = true /\
  (FromContext (Ctx r)).1 !! "section" = Some "posts" /\
  (FromContext (Ctx r)).2 ≠ false.
Proof. by vm_compute. Qed.

(** C9.  The prefix check is a comparison of strings, not of segments: with
    the prefix [/posts], the path [/postsX] passes it, and GET [/postsX] is
    not answered not found but dispatched to [Show], with params attached
    that hold no ["id"] entry (the map is empty). *)
Theorem prefix_check_ignores_segments :
  let h := recording "/posts" in
  let r := NewRequest "GET" "/postsX" in
  let r' := WithContext r (NewContext (Ctx r) r (GoPath.Join [prefix h; ":id"])) in
  NewResourceHandler "/posts" [] = Some h /\
  HasPrefix "/postsX" (prefix h) = true /\
  ServeHTTP h [] r = Some (Show (resource h) [] r') /\
  ServeHTTP h [] r ≠ Some (resource h, http_NotFound [] r) /\
  FromContext (Ctx r') = (∅, true) /\
  (FromContext (Ctx r')).1 !! "id" = None.
Proof.
  assert (Hshow : ServeHTTP (recording "/posts") [] (NewRequest "GET" "/postsX")
                  = Some (Show (resource (recording "/posts")) []
                            (WithContext (NewRequest "GET" "/postsX")
                               (NewContext Background (NewRequest "GET" "/postsX")
                                  (GoPath.Join ["/posts"; ":id"]))))).
  { apply (ServeHTTP_Show (recording "/posts") [] (NewRequest "GET" "/postsX") "X");
      [|done..].
    by apply (trimPath_no_slash "/posts" "X"). }
  split_and!.
  - reflexivity.
  - apply (HasPrefix_append "/posts" "X").
  - exact Hshow.
  - rewrite Hshow. discriminate.
  - reflexivity.
  - apply (match_params_no_separator "/posts" "X"); [|done].
    intros Hin. repeat (apply elem_of_cons in Hin as [Hin|Hin]; [discriminate|]).
    by apply elem_of_nil in Hin.
Qed.

(** C10.  [trimPath] reads the last byte of its argument unguarded, so it
    panics on the empty string, and with it [NewResourceHandler] on the empty
    prefix, [ServeHTTP] on a request with the empty path and [HandleResource]
    on the empty pattern.  Each of them needs a path or prefix that is not
    empty to stay clear of the panic; for [trimPath] and [ServeHTTP] that is
    all they need. *)
Theorem empty_path_panics {T : Type} `{Resource T} :
  trimPath "" = None /\
  (forall res : T, NewResourceHandler "" res = None) /\
  (forall (h : resourceHandler T) w r, URL_Path r = "" -> ServeHTTP h w r = None) /\
  (forall (heap : Heap T) router (res : T), HandleResource heap router "" res = None) /\
  (forall p, trimPath p ≠ None -> p ≠ "") /\
  (forall pre (res : T), NewResourceHandler pre res ≠ None -> pre ≠ "") /\
  (forall (h : resourceHandler T) w r, ServeHTTP h w r ≠ None -> URL_Path r ≠ "") /\
  (forall (heap : Heap T) router pattern (res : T),
     HandleResource heap router pattern res ≠ None -> pattern ≠ "") /\
  (forall p, p ≠ "" -> trimPath p ≠ None) /\
  (forall (h : resourceHandler T) w r, URL_Path r ≠ "" -> ServeHTTP h w r ≠ None).
Proof.
  split_and!; try done.
  - intros h w r Hr. by apply ServeHTTP_None.
  - intros p Hp ->. by apply Hp.
  - intros pre res Hp ->. by apply Hp.
  - intros h w r Hs Hr. by apply Hs, ServeHTTP_None.
  - intros heap router pattern res Hs ->. by apply Hs.
  - intros p Hp Hn. by apply Hp, trimPath_None.
  - intros h w r Hr Hn. by apply Hr, (ServeHTTP_None h w r).
Qed.

(** * Further properties of the code *)

(** ** Trimming and registration *)

Lemma append_snoc_inj (a b : string) (c d : ascii) :
  a ++ String c "" = b ++ String d "" -> a = b /\ c = d.
Proof.
  revert b. induction a as [|x a IH]; intros [|y b]; rewrite ?append_cons;
    rewrite ?append_nil_l; intros Heq.
  - by injection Heq as ->.
  - injection Heq as -> Heq. by destruct b.
  - injection Heq as -> Heq. by destruct a.
  - injection Heq as -> Heq. destruct (IH b Heq) as [-> ->]. done.
Qed.

Lemma ends_in_slash_snoc (a : string) (c : ascii) :
  ends_in_slash (a ++ String c "") <-> c = "/"%char.
Proof.
  unfold ends_in_slash. split.
  - intros [t Ht]. by apply append_snoc_inj in Ht as [_ ->].
  - intros ->. by exists a.
Qed.

Lemma not_ends_in_slash_empty : ~ ends_in_slash "".
Proof. intros [t Ht]. by destruct t. Qed.

(** X1.  [trimPath] drops one trailing slash and no more: it returns [p]
    exactly for the path [p/] and for a path [p] that is not empty and does
    not end in a slash.  (So of [a//] it leaves [a/].) *)
Theorem trimPath_one_slash (s p : string) :
  trimPath s = Some p <->
  s = p ++ "/" \/ (s = p /\ s ≠ "" /\ ~ ends_in_slash s).
Proof.
  split.
  - intros Hs. destruct (decide (s = "")) as [->|Hne]; [done|].
    destruct (string_last s Hne) as (t & c & ->).
    rewrite trimPath_snoc in Hs.
    destruct (Ascii.eqb_spec c "/") as [->|Hc]; injection Hs as <-; [by left|].
    right. split_and!; [done..|]. by rewrite ends_in_slash_snoc.
  - intros [->|(-> & Hne & Hslash)]; [apply trimPath_slash|].
    destruct (string_last p Hne) as (t & c & ->).
    rewrite trimPath_snoc. rewrite ends_in_slash_snoc in Hslash.
    by rewrite (proj2 (Ascii.eqb_neq _ _) Hslash).
Qed.

(** X2.  [NewResourceHandler] panics on the prefixes [""] and ["/"] and on no
    other.  Otherwise the handler holds the resource given and the prefix
    less one or two trailing slashes: the prefix as given when that has no
    trailing slash, less one when it has one, less two otherwise; so the
    prefix kept still ends in a slash when three or more were given. *)
Theorem NewResourceHandler_strips {T : Type} (pre : string) (res : T) :
  match NewResourceHandler pre res with
  | None => pre = "" \/ pre = "/"
  | Some h =>
      resource h = res /\ pre ≠ "" /\ pre ≠ "/" /\
      ((pre = prefix h /\ ~ ends_in_slash pre) \/
       (pre = prefix h ++ "/" /\ ~ ends_in_slash (prefix h)) \/
       pre = prefix h ++ "//")
  end.
Proof.
  destruct (decide (pre = "")) as [->|Hne]; [by left|].
  destruct (string_last pre Hne) as (t & c & ->).
  unfold NewResourceHandler. rewrite index_last. simpl.
  destruct (Ascii.eqb_spec c "/") as [->|Hc].
  - rewrite slice_to_last. simpl.
    destruct (decide (t = "")) as [->|Hne']; [by right|].
    destruct (string_last t Hne') as (t' & c' & ->).
    rewrite trimPath_snoc. simpl.
    assert (Hroot : (t' ++ String c' "") ++ "/" ≠ "/").
    { intros Heq. apply (f_equal String.length) in Heq.
      rewrite !length_append in Heq. simpl in Heq. lia. }
    split_and!; [done..|].
    destruct (Ascii.eqb_spec c' "/") as [->|Hc'].
    + right; right. by rewrite append_assoc.
    + right; left. split; [done|]. by rewrite ends_in_slash_snoc.
  - simpl. rewrite trimPath_snoc, (proj2 (Ascii.eqb_neq _ _) Hc). simpl.
    split_and!; [done..| |].
    + intros Heq. change "/" with ("" ++ "/") in Heq.
      by apply append_snoc_inj in Heq as [_ ->].
    + left. split; [done|]. by rewrite ends_in_slash_snoc.
Qed.

Section RegistrationMore.

Context {T : Type} `{Resource T}.

(** What a registration that goes through has done. *)
Lemma HandleResource_inv (heap heap' : Heap T) (router router' : Router)
    (pattern : string) (res : T) :
  HandleResource heap router pattern res = Some (heap', router') ->
  exists (P : string) (h : resourceHandler T),
    trimPath pattern = Some P /\
    NewResourceHandler P res = Some h /\
    heap' = (heap ++ [ResourceH h])%list /\
    mux router !! P = None /\
    mux router !! (P ++ "/") = None /\
    mux router' = <[P ++ "/" := List.length heap]> (<[P := List.length heap]> (mux router)).
Proof.
  unfold HandleResource. intros Hreg.
  destruct (trimPath pattern) as [P|] eqn:HP; [|done]. simpl in Hreg.
  destruct (NewResourceHandler P res) as [h|] eqn:Hh; [|done]. simpl in Hreg.
  destruct (mux_Handle (mux router) P (List.length heap)) as [m1|] eqn:H1;
    [|done]. simpl in Hreg.
  destruct (mux_Handle m1 (P ++ "/") (List.length heap)) as [m2|] eqn:H2;
    [|done]. simpl in Hreg.
  injection Hreg as <- <-.
  apply mux_Handle_Some in H1 as (_ & HfreshP & ->).
  apply mux_Handle_Some in H2 as (_ & Hfresh' & ->).
  rewrite lookup_insert_ne in Hfresh' by apply append_slash_ne.
  by exists P, h.
Qed.

Lemma mux_Handle_None (m : gmap string nat) (pattern : string) (l : nat) :
  mux_Handle m pattern l = None <-> pattern = "" \/ is_Some (m !! pattern).
Proof.
  unfold mux_Handle.
  destruct (String.eqb_spec pattern "") as [->|Hne]; [by split; [left|]|].
  destruct (m !! pattern) as [l'|] eqn:Hl.
  - split; [right; by eexists|done].
  - split; [done|]. by intros [|[? ?]].
Qed.

(** A registration panics when one of its two entries is taken. *)
Lemma HandleResource_taken (heap : Heap T) (router : Router)
    (pattern P : string) (res : T) :
  trimPath pattern = Some P ->
  is_Some (mux router !! P) \/ is_Some (mux router !! (P ++ "/")) ->
  HandleResource heap router pattern res = None.
Proof.
  intros HP Htaken. unfold HandleResource. rewrite HP. simpl.
  destruct (NewResourceHandler P res) as [h|]; [|done]. simpl.
  destruct (mux_Handle (mux router) P (List.length heap)) as [m1|] eqn:H1;
    [|done]. simpl.
  apply mux_Handle_Some in H1 as (_ & HfreshP & ->).
  destruct Htaken as [[l Hl]|Htaken]; [by rewrite Hl in HfreshP|].
  assert (mux_Handle (<[P:=List.length heap]> (mux router)) (P ++ "/")
            (List.length heap) = None) as ->; [|done].
  apply mux_Handle_None. right.
  by rewrite lookup_insert_ne by apply append_slash_ne.
Qed.

End RegistrationMore.

(** X3.  [HandleResource] panics for the patterns [""], ["/"] and ["//"]
    (the root cannot be registered as a resource), and when the trimmed
    pattern or its subtree is registered already. *)
Theorem HandleResource_panics {T : Type} `{Resource T}
    (heap : Heap T) (router : Router) (pattern : string) (res : T) :
  pattern = "" \/ pattern = "/" \/ pattern = "//" \/
  (exists P, trimPath pattern = Some P /\
             (is_Some (mux router !! P) \/ is_Some (mux router !! (P ++ "/")))) ->
  HandleResource heap router pattern res = None.
Proof.
  intros [->|[->|[->|(P & HP & Htaken)]]]; [done..|].
  by apply (HandleResource_taken _ _ _ P).
Qed.

Lemma HandleResource_panics_witness :
  let heap := [ResourceH (recording "/posts")] in
  let router := {| mux := <["/posts/" := 0%nat]> (<["/posts" := 0%nat]> ∅) |} in
  HandleResource [] NewRouter "/" ([] : list (Action * Request)) = None /\
  HandleResource [] NewRouter "//" ([] : list (Action * Request)) = None /\
  trimPath "/posts/" = Some "/posts" /\
  is_Some (mux router !! "/posts") /\
  HandleResource heap router "/posts/" [] = None.
Proof.
  assert (Htaken : is_Some (({| mux := <["/posts/" := 0%nat]> (<["/posts" := 0%nat]> ∅) |}
                               : Router).(mux) !! "/posts")) by (by eexists).
  split_and!; [| |reflexivity|exact Htaken|].
  - apply (HandleResource_panics [] NewRouter "/" []). right; left; reflexivity.
  - apply (HandleResource_panics [] NewRouter "//" []). right; right; left; reflexivity.
  - apply (HandleResource_panics [ResourceH (recording "/posts")] _ "/posts/" []).
    right; right; right. exists "/posts". split; [reflexivity|left; exact Htaken].
Defined.

(** X4.  A pattern is registered as a resource once: after a registration, a
    second one panics for every pattern that trims to the same path, the
    pattern itself and the pattern with or without its trailing slash. *)
Theorem HandleResource_again {T : Type} `{Resource T}
    (heap heap' : Heap T) (router router' : Router)
    (pattern pattern' : string) (res res' : T) :
  HandleResource heap router pattern res = Some (heap', router') ->
  trimPath pattern' = trimPath pattern ->
  HandleResource heap' router' pattern' res' = None.
Proof.
  intros Hreg Hsame.
  apply HandleResource_inv in Hreg as (P & h & HP & _ & _ & _ & _ & Hmux).
  apply (HandleResource_taken _ _ _ P); [by rewrite Hsame|].
  right. rewrite Hmux, lookup_insert_eq. by eexists.
Qed.

Lemma HandleResource_again_witness :
  let h := recording "/posts" in
  let heap' := [ResourceH h] in
  let router' := {| mux := <["/posts/" := 0%nat]> (<["/posts" := 0%nat]> ∅) |} in
  HandleResource [] NewRouter "/posts" [] = Some (heap', router') /\
  trimPath "/posts/" = trimPath "/posts" /\
  HandleResource heap' router' "/posts/" [] = None.
Proof.
  assert (Hreg : HandleResource [] NewRouter "/posts" []
                 = Some ([ResourceH (recording "/posts")],
                         {| mux := <["/posts/" := 0%nat]> (<["/posts" := 0%nat]> ∅) |}))
    by reflexivity.
  split_and!; [exact Hreg|reflexivity|].
  exact (HandleResource_again _ _ _ _ "/posts" "/posts/" [] [] Hreg eq_refl).
Defined.

(** X5.  A registration leaves what was there alone: every entry of the
    multiplexer keeps its handler, every handler object stays as it was, and
    a request served through an earlier entry is served as before. *)
Theorem HandleResource_frame {T : Type} `{Resource T}
    (heap heap' : Heap T) (router router' : Router) (pattern : string) (res : T) :
  HandleResource heap router pattern res = Some (heap', router') ->
  (forall k l, mux router !! k = Some l -> mux router' !! k = Some l) /\
  (forall l hd, heap !! l = Some hd -> heap' !! l = Some hd) /\
  (forall k l w r,
     mux router !! k = Some l -> (l < List.length heap)%nat ->
     serve_entry heap' router' k w r = serve_entry heap router k w r).
Proof.
  intros Hreg.
  apply HandleResource_inv in Hreg as (P & h & _ & _ & -> & HfreshP & Hfresh' & Hmux).
  assert (Hkeep : forall k l, mux router !! k = Some l -> mux router' !! k = Some l).
  { intros k l Hk. rewrite Hmux.
    assert (P ≠ k) by (intros ->; congruence).
    assert (P ++ "/" ≠ k) by (intros <-; congruence).
    by rewrite !lookup_insert_ne. }
  split_and!; [done| |].
  - intros l hd Hl. by apply lookup_app_l_Some.
  - intros k l w r Hk Hlt.
    destruct (lookup_lt_is_Some_2 heap l Hlt) as [hd Hhd].
    rewrite (serve_entry_lookup heap router k l hd) by done.
    apply (serve_entry_lookup _ _ k l);
      [by apply Hkeep|by apply lookup_app_l_Some].
Qed.

Lemma HandleResource_frame_witness :
  let h := recording "/posts" in
  let heap := [ResourceH h] in
  let router := {| mux := <["/posts/" := 0%nat]> (<["/posts" := 0%nat]> ∅) |} in
  let heap' := [ResourceH h; ResourceH (recording "/users")] in
  let router' := {| mux := <["/users/" := 1%nat]> (<["/users" := 1%nat]> (mux router)) |} in
  HandleResource heap router "/users" [] = Some (heap', router') /\
  mux router' !! "/posts" = Some 0%nat /\
  heap' !! 0%nat = Some (ResourceH h) /\
  forall w r, serve_entry heap' router' "/posts" w r
              = serve_entry heap router "/posts" w r.
Proof.
  assert (Hreg : HandleResource [ResourceH (recording "/posts")]
                   {| mux := <["/posts/" := 0%nat]> (<["/posts" := 0%nat]> ∅) |}
                   "/users" []
                 = Some ([ResourceH (recording "/posts"); ResourceH (recording "/users")],
                         {| mux := <["/users/" := 1%nat]> (<["/users" := 1%nat]>
                              (<["/posts/" := 0%nat]> (<["/posts" := 0%nat]> ∅))) |}))
    by reflexivity.
  pose proof (HandleResource_frame _ _ _ _ _ _ Hreg) as (Hkeep & Hobj & Hserve).
  split_and!; [exact Hreg|by apply Hkeep|by apply Hobj|].
  intros w r. apply (Hserve "/posts" 0%nat); [reflexivity|simpl; lia].
Defined.

(** ** Dispatch, seen from the resource *)

Lemma app_singleton_ne {A : Type} (l : list A) (x : A) : l ≠ (l ++ [x])%list.
Proof.
  intros Heq. apply (f_equal List.length) in Heq.
  rewrite length_app in Heq. simpl in Heq. lia.
Qed.

Lemma trimPath_unslashed (s : string) :
  s ≠ "" -> ~ ends_in_slash s -> trimPath s = Some s.
Proof.
  intros Hne Hslash. destruct (string_last s Hne) as (t & c & ->).
  rewrite trimPath_snoc. rewrite ends_in_slash_snoc in Hslash.
  by rewrite (proj2 (Ascii.eqb_neq _ _) Hslash).
Qed.

(** X6.  A request whose path is not empty gets one of three outcomes from
    the handler, never two: not found with no call, method not allowed with
    no call, or one call of one method of the resource, with nothing written
    by the handler itself; the request handed over has the method and the
    path of the request served. *)
Theorem ServeHTTP_outcomes (pre : string) (log : list (Action * Request))
    (w : ResponseWriter) (r : Request) :
  URL_Path r ≠ "" ->
  let h := {| resource := log; prefix := pre |} in
  ServeHTTP h w r = Some (log, http_NotFound w r) \/
  ServeHTTP h w r
  = Some (log, http_Error w "Method Not Allowed" StatusMethodNotAllowed) \/
  exists a r',
    ServeHTTP h w r = Some ((log ++ [(a, r')])%list, (w ++ [WriteHeader 200])%list) /\
    Method r' = Method r /\ URL_Path r' = URL_Path r.
Proof.
  intros Hne h. unfold ServeHTTP.
  destruct (trimPath (URL_Path r)) as [p|] eqn:Hp;
    [|by apply trimPath_None in Hp].
  simpl. destruct (HasPrefix p pre); simpl; [|by left].
  right.
  repeat match goal with
         | |- context [if ?b then _ else _] => destruct b
         end;
    first [ left; reflexivity | right; eexists _, _; split; [reflexivity|done] ].
Qed.

Lemma ServeHTTP_outcomes_witness :
  let r := NewRequest "DELETE" "/posts/7" in
  let h := recording "/posts" in
  URL_Path r ≠ "" /\
  exists a r',
    ServeHTTP h [] r = Some ([(a, r')], [WriteHeader 200]) /\
    Method r' = "DELETE" /\ URL_Path r' = "/posts/7".
Proof.
  assert (Hne : URL_Path (NewRequest "DELETE" "/posts/7") ≠ "") by discriminate.
  split; [exact Hne|].
  destruct (ServeHTTP_outcomes "/posts" [] [] (NewRequest "DELETE" "/posts/7") Hne)
    as [Hnf|[Hna|Hcall]]; [discriminate Hnf|discriminate Hna|exact Hcall].
Defined.

(** X7.  What a method of the resource may rely on when the handler calls
    it.  The path passed the prefix check.  [Index] is called for GET on the
    prefix itself, [Show] for GET on a longer path, [Create] for POST,
    [Update] for PUT and [Destroy] for DELETE.  [Index] and [Create] get the
    request as it came; [Show], [Update] and [Destroy] get it in a new
    context where [FromContext] always finds params: those matched against
    [prefix/:id], whatever params the request came with, the values under
    other keys being kept. *)
Theorem dispatch_sound (pre : string) (log : list (Action * Request))
    (w w' : ResponseWriter) (r r' : Request) (a : Action) :
  ServeHTTP {| resource := log; prefix := pre |} w r
  = Some ((log ++ [(a, r')])%list, w') ->
  exists p,
    trimPath (URL_Path r) = Some p /\ HasPrefix p pre = true /\
    let item :=
      r' = WithContext r (NewContext (Ctx r) r (GoPath.Join [pre; ":id"])) /\
      FromContext (Ctx r')
      = (match_params (URL_Path r) (GoPath.Join [pre; ":id"]), true) /\
      forall k, Value (Ctx r') (foreignKey k) = Value (Ctx r) (foreignKey k) in
    match a with
    | AIndex => Method r = "GET" /\ p = pre /\ r' = r
    | AShow => Method r = "GET" /\ p ≠ pre /\ item
    | ACreate => Method r = "POST" /\ r' = r
    | AUpdate => Method r = "PUT" /\ item
    | ADestroy => Method r = "DELETE" /\ item
    end.
Proof.
  unfold ServeHTTP. intros Hs.
  destruct (trimPath (URL_Path r)) as [p|] eqn:Hp; [|done]. simpl in Hs.
  exists p. split; [done|].
  destruct (HasPrefix p pre) eqn:Hpre; simpl in Hs.
  2: { injection Hs as Hlog _. by apply app_singleton_ne in Hlog. }
  split; [done|].
  apply HasPrefix_spec in Hpre as [t ->]. rewrite TrimPrefix_append in Hs.
  destruct (String.eqb_spec (Method r) "GET") as [Hm|_].
  { destruct (decide (t = "")) as [->|Ht].
    - simpl in Hs. injection Hs as Hlog _.
      apply app_inv_head in Hlog. injection Hlog as <- <-.
      by rewrite append_nil_r.
    - rewrite (proj2 (Z.ltb_lt _ _) (len_pos t Ht)) in Hs.
      injection Hs as Hlog _. apply app_inv_head in Hlog. injection Hlog as <- <-.
      split_and!; try done.
      intros Heq. apply Ht. rewrite <- (append_nil_r pre) in Heq at 2.
      by apply String.app_inj in Heq. }
  destruct (String.eqb_spec (Method r) "POST") as [Hm|_].
  { injection Hs as Hlog _. apply app_inv_head in Hlog. by injection Hlog as <- <-. }
  destruct (String.eqb_spec (Method r) "PUT") as [Hm|_].
  { injection Hs as Hlog _. apply app_inv_head in Hlog. by injection Hlog as <- <-. }
  destruct (String.eqb_spec (Method r) "DELETE") as [Hm|_].
  { injection Hs as Hlog _. apply app_inv_head in Hlog. by injection Hlog as <- <-. }
  injection Hs as Hlog _. by apply app_singleton_ne in Hlog.
Qed.

Lemma dispatch_sound_witness :
  let r := NewRequest "GET" "/posts/7" in
  let r' := WithContext r (NewContext (Ctx r) r (GoPath.Join ["/posts"; ":id"])) in
  ServeHTTP (recording "/posts") [] r = Some ([(AShow, r')], [WriteHeader 200]) /\
  exists p,
    trimPath (URL_Path r) = Some p /\ HasPrefix p "/posts" = true /\
    Method r = "GET" /\ p ≠ "/posts" /\
    FromContext (Ctx r')
    = (match_params (URL_Path r) (GoPath.Join ["/posts"; ":id"]), true).
Proof.
  assert (Hs : ServeHTTP (recording "/posts") [] (NewRequest "GET" "/posts/7")
               = Some (([] ++ [(AShow,
                   WithContext (NewRequest "GET" "/posts/7")
                     (NewContext Background (NewRequest "GET" "/posts/7")
                        (GoPath.Join ["/posts"; ":id"])))])%list, [WriteHeader 200]))
    by reflexivity.
  split; [exact Hs|].
  destruct (dispatch_sound _ _ _ _ _ _ _ Hs) as (p & Hp & Hpre & Hm & Hne & _ & Hctx & _).
  exists p. split_and!; [exact Hp|exact Hpre|exact Hm|exact Hne|exact Hctx].
Defined.

(** X10.  One trailing slash added to a request path that is not empty and
    has none changes nothing in the dispatch: the same method of the
    resource is called, or the same answer given.  (The empty path panics,
    the path ["/"] does not.) *)
Theorem dispatch_trailing_slash (pre : string) (log : list (Action * Request))
    (w : ResponseWriter) (r : Request) :
  URL_Path r ≠ "" -> ~ ends_in_slash (URL_Path r) ->
  let h := {| resource := log; prefix := pre |} in
  let r_slash :=
    {| Method := Method r; URL_Path := URL_Path r ++ "/"; Ctx := Ctx r |} in
  exists log1 log2 w',
    ServeHTTP h w r = Some (log1, w') /\
    ServeHTTP h w r_slash = Some (log2, w') /\
    fst <$> log1 = fst <$> log2.
Proof.
  intros Hne Hslash h r_slash. unfold ServeHTTP. simpl.
  rewrite trimPath_slash, (trimPath_unslashed _ Hne Hslash). simpl.
  destruct (HasPrefix (URL_Path r) pre); simpl; [|by eexists _, _, _].
  repeat match goal with
         | |- context [if ?b then _ else _] => destruct b
         end;
    eexists _, _, _; (split_and!; [reflexivity|reflexivity|]);
    by rewrite ?fmap_app.
Qed.

Lemma dispatch_trailing_slash_witness :
  let h := recording "/posts" in
  let r := NewRequest "PUT" "/posts/7" in
  let r_slash := NewRequest "PUT" "/posts/7/" in
  URL_Path r ≠ "" /\ ~ ends_in_slash (URL_Path r) /\
  exists log1 log2 w',
    ServeHTTP h [] r = Some (log1, w') /\
    ServeHTTP h [] r_slash = Some (log2, w') /\
    fst <$> log1 = fst <$> log2.
Proof.
  assert (Hne : URL_Path (NewRequest "PUT" "/posts/7") ≠ "") by discriminate.
  assert (Hslash : ~ ends_in_slash (URL_Path (NewRequest "PUT" "/posts/7"))).
  { change (~ ends_in_slash ("/posts/" ++ String "7" "")).
    rewrite ends_in_slash_snoc. discriminate. }
  split_and!; [exact Hne|exact Hslash|].
  exact (dispatch_trailing_slash "/posts" [] [] _ Hne Hslash).
Defined.

(** ** What the matcher binds *)

Lemma Split_elem_no_slash (s x : string) : x ∈ Split s -> no_slash x = true.
Proof.
  revert x. induction s as [|c s IH]; intros x; simpl.
  - intros ->%list_elem_of_singleton. done.
  - destruct (Ascii.eqb c "/") eqn:Hc.
    + intros [->|Hx]%elem_of_cons; [done|by apply IH].
    + pose proof (Split_nonempty s) as Hne.
      destruct (Split s) as [|y ys]; [done|].
      intros [->|Hx]%elem_of_cons.
      * simpl. rewrite Hc. simpl. apply IH. by left.
      * apply IH. by right.
Qed.

(** X8.  A value the matcher binds is a segment of the request path, so it
    holds no slash, and the name it is bound to is a placeholder of the
    pattern: no name is made up, no value spans two segments. *)
Theorem match_params_values (path pattern k v : string) :
  match_params path pattern !! k = Some v ->
  v ∈ Split path /\ no_slash v = true /\ String ":" k ∈ Split pattern.
Proof.
  intros Hv. apply match_params_lookup in Hv as (j & Hpat & Hurl & _).
  assert (Hin : v ∈ Split path) by (by eapply list_elem_of_lookup_2).
  split_and!; [done|by eapply Split_elem_no_slash|by eapply list_elem_of_lookup_2].
Qed.

Lemma match_params_values_witness :
  match_params "/posts/23/comments" "/posts/:id" !! "id" = Some "23" /\
  "23" ∈ Split "/posts/23/comments" /\ no_slash "23" = true /\
  ":id" ∈ Split "/posts/:id".
Proof.
  assert (Hv : match_params "/posts/23/comments" "/posts/:id" !! "id" = Some "23")
    by reflexivity.
  split; [exact Hv|].
  exact (match_params_values "/posts/23/comments" "/posts/:id" "id" "23" Hv).
Defined.

(** X9.  For a prefix that is a rooted path of plain elements, none of them
    a placeholder, the context built for an item route holds exactly the one
    param: the map is [{"id": seg}] for the first segment [seg] after the
    prefix, and the pattern it was matched against is the prefix followed by
    [/:id]. *)
Theorem item_params_exact (ctx : Context) (r : Request)
    (segs : list string) (seg rest : string) :
  segs ≠ [] ->
  forallb plain segs = true ->
  forallb (fun s => negb (is_param s)) segs = true ->
  no_slash seg = true ->
  rest = "" \/ (exists rest', rest = String "/" rest') ->
  URL_Path r = rooted_path segs ++ "/" ++ seg ++ rest ->
  GoPath.Join [rooted_path segs; ":id"] = rooted_path segs ++ "/:id" /\
  FromContext (NewContext ctx r (GoPath.Join [rooted_path segs; ":id"]))
  = ({[ "id" := seg ]}, true).
Proof.
  intros Hne Hplain Hlit Hseg Hrest Hpath.
  pose proof (Join_rooted_path segs Hne Hplain) as HJ.
  split; [done|]. rewrite FromContext_NewContext, HJ, Hpath. f_equal.
  destruct (Split_first_segment seg rest Hseg Hrest) as [more Hmore].
  change (rooted_path segs ++ "/" ++ seg ++ rest)
    with (rooted_path segs ++ String "/" (seg ++ rest)).
  apply map_eq. intros k.
  destruct (decide (k = "id")) as [->|Hk].
  - rewrite lookup_singleton_eq. by eapply match_params_id.
  - rewrite lookup_singleton_ne by done.
    apply eq_None_not_Some. intros [v Hv].
    apply match_params_lookup in Hv as (j & Hpat & _).
    change (rooted_path segs ++ "/:id")
      with (rooted_path segs ++ String "/" ":id") in Hpat.
    rewrite Split_append_slash, Split_rooted_path in Hpat by done.
    change (Split ":id") with [":id"] in Hpat.
    destruct j as [|j]; [done|]. simpl in Hpat.
    apply lookup_app_Some in Hpat as [Hpat|[_ Hpat]].
    + apply list_elem_of_lookup_2 in Hpat.
      rewrite forallb_forall in Hlit.
      apply list_elem_of_In, Hlit in Hpat.
      by rewrite is_param_colon in Hpat.
    + apply list_lookup_singleton_Some in Hpat as [_ Hpat].
      by injection Hpat as <-.
Qed.

Lemma item_params_exact_witness :
  let segs := ["api"; "posts"] in
  let r := NewRequest "GET" "/api/posts/23/comments" in
  segs ≠ [] /\ forallb plain segs = true /\
  forallb (fun s => negb (is_param s)) segs = true /\
  no_slash "23" = true /\
  (exists rest', "/comments" = String "/" rest') /\
  URL_Path r = rooted_path segs ++ "/" ++ "23" ++ "/comments" /\
  GoPath.Join ["/api/posts"; ":id"] = "/api/posts/:id" /\
  FromContext (NewContext Background r (GoPath.Join ["/api/posts"; ":id"]))
  = ({[ "id" := "23" ]}, true).
Proof.
  assert (Hne : ["api"; "posts"] ≠ []) by discriminate.
  assert (Hrest : exists rest', "/comments" = String "/" rest')
    by (exists "comments"; reflexivity).
  split_and!; [exact Hne|reflexivity|reflexivity|reflexivity|exact Hrest|reflexivity|..];
    apply (item_params_exact Background (NewRequest "GET" "/api/posts/23/comments")
             ["api"; "posts"] "23" "/comments" Hne eq_refl eq_refl eq_refl
             (or_intror Hrest) eq_refl).
Defined.

(** ** The example resource *)

Lemma int_wrap_small (z : Z) : - 2 ^ 63 <= z < 2 ^ 63 -> int_wrap z = z.
Proof. intros Hz. unfold int_wrap. rewrite Z.mod_small; lia. Qed.

Section ExampleFacts.

Context `{External}.
Implicit Types (er : EmployeeResource) (w : ResponseWriter) (r : Request).

(** X11.  [Show] of an id that is not there answers not found and goes on:
    after the 404 it writes the JSON of the zero employee (no return follows
    [http.NotFound]).  The resource stays as it was. *)
Theorem Show_unknown_goes_on er w r (params : RouteParams) (out : string) :
  FromContext (Ctx r) = (params, true) ->
  Employees_lookup (Employees er) (RouteParams_get params "id") = None ->
  MarshalEmployee {| Name := "" |} = inl out ->
  EmployeeResource_Show er w r
  = Some (er, (http_NotFound w r
               ++ [SetHeader "Content-Type" "application/json"; Write out])%list).
Proof.
  intros Hctx Hid Hout. unfold EmployeeResource_Show, WriteJSON.
  by rewrite Hctx, Hid, Hout.
Qed.

(** X12.  [Update] of an id that is not there answers not found and stores
    the employee all the same (the map not being nil): afterwards the id is
    there, and [Show] of it writes the employee with no 404. *)
Theorem Update_unknown_stores er w r (params : RouteParams)
    (m : gmap string Employee) (v : Employee) :
  FromContext (Ctx r) = (params, true) ->
  Employees er = Some m ->
  m !! RouteParams_get params "id" = None ->
  ReadJSON ReadAll UnmarshalEmployee r {| Name := "" |} = (v, None) ->
  exists er',
    EmployeeResource_Update er w r
    = Some (er', (http_NotFound w r ++ [WriteHeader StatusOK])%list) /\
    Employees_lookup (Employees er') (RouteParams_get params "id") = Some v /\
    forall w2, EmployeeResource_Show er' w2 r
               = match MarshalEmployee v with
                 | inl out => Some (er', (w2 ++ [SetHeader "Content-Type" "application/json";
                                                 Write out])%list)
                 | inr err => Some (er', http_Error w2 err StatusInternalServerError)
                 end.
Proof.
  intros Hctx Hm Hid Hread. eexists. split_and!.
  - unfold EmployeeResource_Update. rewrite Hctx, Hread, Hm. simpl. by rewrite Hid.
  - simpl. apply lookup_insert_eq.
  - intros w2. unfold EmployeeResource_Show, WriteJSON. rewrite Hctx. simpl.
    rewrite lookup_insert_eq. by destruct (MarshalEmployee v).
Qed.

(** X13.  Where the example panics: [Create] and [Update] panic when the map
    of employees is nil and the body decodes (and [Update] has its params),
    and in no other case; [Index], [Show] and [Destroy] never panic.  The
    resource that [Example] builds has a nil map. *)
Theorem example_panics er w r :
  (EmployeeResource_Create er w r = None <->
   Employees er = None /\
   (ReadJSON ReadAll UnmarshalEmployee r {| Name := "" |}).2 = None) /\
  (EmployeeResource_Update er w r = None <->
   Employees er = None /\ (FromContext (Ctx r)).2 = true /\
   (ReadJSON ReadAll UnmarshalEmployee r {| Name := "" |}).2 = None) /\
  is_Some (EmployeeResource_Index er w r) /\
  is_Some (EmployeeResource_Show er w r) /\
  is_Some (EmployeeResource_Destroy er w r) /\
  Employees Example_resource = None.
Proof.
  split_and!; [| | | | |done].
  - unfold EmployeeResource_Create.
    destruct (ReadJSON ReadAll UnmarshalEmployee r _) as [v [err|]]; simpl.
    + split; [done|by intros [_ ?]].
    + destruct (Employees er); split; try done. by intros [? _].
  - unfold EmployeeResource_Update.
    destruct (FromContext (Ctx r)) as [params [|]]; simpl;
      [|split; [done|by intros (_ & ? & _)]].
    destruct (ReadJSON ReadAll UnmarshalEmployee r _) as [v [err|]]; simpl.
    + split; [done|by intros (_ & _ & ?)].
    + destruct (Employees er); split; try done. by intros (? & _).
  - unfold EmployeeResource_Index, WriteJSON.
    by destruct (MarshalEmployees _).
  - unfold EmployeeResource_Show, WriteJSON.
    destruct (FromContext (Ctx r)) as [params [|]]; [|done].
    destruct (Employees_lookup _ _); by destruct (MarshalEmployee _).
  - unfold EmployeeResource_Destroy.
    by destruct (FromContext (Ctx r)) as [params [|]].
Qed.

(** X14.  [Create] and [Show] round trip: the id that [Create] writes to the
    response is the id under which [Show] finds the employee just decoded,
    with no 404 (the map not being nil). *)
Theorem Create_then_Show er w r (m : gmap string Employee) (v : Employee) :
  Employees er = Some m ->
  ReadJSON ReadAll UnmarshalEmployee r {| Name := "" |} = (v, None) ->
  exists er' id,
    EmployeeResource_Create er w r = Some (er', (w ++ [Write id])%list) /\
    id = strconv_Itoa (int_wrap (lastID er + 1)) /\
    forall w2 r2 (params : RouteParams),
      FromContext (Ctx r2) = (params, true) ->
      RouteParams_get params "id" = id ->
      EmployeeResource_Show er' w2 r2
      = match MarshalEmployee v with
        | inl out => Some (er', (w2 ++ [SetHeader "Content-Type" "application/json";
                                        Write out])%list)
        | inr err => Some (er', http_Error w2 err StatusInternalServerError)
        end.
Proof.
  intros Hm Hread. eexists _, _. split_and!.
  - unfold EmployeeResource_Create. by rewrite Hread, Hm.
  - done.
  - intros w2 r2 params Hctx Hid.
    unfold EmployeeResource_Show, WriteJSON. rewrite Hctx, Hid. simpl.
    rewrite lookup_insert_eq. by destruct (MarshalEmployee v).
Qed.

(** X15.  After [Destroy] of an id the id is gone, every other employee is
    where it was and [lastID] is what it was; for an id that was not there
    the answer is not found, followed by [WriteHeader(200)], and the map is
    unchanged. *)
Theorem Destroy_removes er w r (params : RouteParams) :
  FromContext (Ctx r) = (params, true) ->
  let id := RouteParams_get params "id" in
  exists er' w',
    EmployeeResource_Destroy er w r = Some (er', w') /\
    Employees_lookup (Employees er') id = None /\
    (forall id', id' ≠ id ->
       Employees_lookup (Employees er') id' = Employees_lookup (Employees er) id') /\
    lastID er' = lastID er /\
    (Employees_lookup (Employees er) id = None ->
     Employees er' = Employees er /\
     w' = (http_NotFound w r ++ [WriteHeader StatusOK])%list) /\
    (is_Some (Employees_lookup (Employees er) id) ->
     w' = (w ++ [WriteHeader StatusOK])%list).
Proof.
  intros Hctx id. eexists _, _. split_and!.
  - unfold EmployeeResource_Destroy. by rewrite Hctx.
  - simpl. destruct (Employees er); simpl; [apply lookup_delete_eq|done].
  - intros id' Hne. simpl.
    destruct (Employees er); simpl; [by apply lookup_delete_ne|done].
  - done.
  - intros Hnone. fold id. rewrite Hnone. split; [|done].
    simpl. destruct (Employees er) as [m|]; simpl in *; [|done].
    f_equal. by apply delete_id.
  - intros [e He]. fold id. by rewrite He.
Qed.

(** X16.  [Create] never overwrites: when the map of employees is not nil,
    the body decodes, every employee is kept under an id that [Create] has
    handed out, and [lastID] is not negative and short of the largest [int],
    the new employee gets [lastID + 1], an id that is free; every employee
    kept stays, and the ids kept are again ids handed out. *)
Theorem Create_fresh er w r (m : gmap string Employee) (v : Employee) :
  ids_issued er ->
  0 <= lastID er < 2 ^ 63 - 1 ->
  Employees er = Some m ->
  ReadJSON ReadAll UnmarshalEmployee r {| Name := "" |} = (v, None) ->
  exists er',
    EmployeeResource_Create er w r
    = Some (er', (w ++ [Write (strconv_Itoa (lastID er + 1))])%list) /\
    lastID er' = lastID er + 1 /\
    m !! strconv_Itoa (lastID er + 1) = None /\
    Employees er' = Some (<[strconv_Itoa (lastID er + 1) := v]> m) /\
    (forall k e, m !! k = Some e -> Employees_lookup (Employees er') k = Some e) /\
    ids_issued er'.
Proof.
  intros Hinv Hlast Hm Hread.
  assert (Hwrap : int_wrap (lastID er + 1) = lastID er + 1)
    by (apply int_wrap_small; lia).
  assert (Hfree : m !! strconv_Itoa (lastID er + 1) = None).
  { apply eq_None_not_Some. intros [e He].
    destruct (Hinv (strconv_Itoa (lastID er + 1)) e) as (i & Hi & Heq).
    { by rewrite Hm. }
    apply (inj pretty) in Heq. lia. }
  eexists. split_and!.
  - unfold EmployeeResource_Create. by rewrite Hread, Hm, Hwrap.
  - done.
  - done.
  - done.
  - intros k e Hk. simpl. rewrite lookup_insert_ne; [done|].
    intros <-. congruence.
  - intros k e. simpl. rewrite lookup_insert.
    case_decide as Hk.
    + intros _. exists (lastID er + 1). split; [lia|done].
    + intros Hk'. destruct (Hinv k e) as (i & Hi & ->); [by rewrite Hm|].
      exists i. split; [lia|done].
Qed.

(** X17.  What the methods change of the resource: [Index] and [Show]
    nothing; [Update] and [Destroy] never [lastID]; [Create] nothing when
    the body does not decode, and else [lastID] by one (wrapping around). *)
Theorem example_state_changes er w r er' w' :
  (EmployeeResource_Index er w r = Some (er', w') -> er' = er) /\
  (EmployeeResource_Show er w r = Some (er', w') -> er' = er) /\
  (EmployeeResource_Update er w r = Some (er', w') -> lastID er' = lastID er) /\
  (EmployeeResource_Destroy er w r = Some (er', w') -> lastID er' = lastID er) /\
  (EmployeeResource_Create er w r = Some (er', w') ->
   (er' = er /\ w' = http_Error w "Bad Request" StatusBadRequest) \/
   lastID er' = int_wrap (lastID er + 1)).
Proof.
  split_and!.
  - unfold EmployeeResource_Index, WriteJSON.
    destruct (MarshalEmployees _); by intros [= <- _].
  - unfold EmployeeResource_Show, WriteJSON.
    destruct (FromContext (Ctx r)) as [params [|]]; [|by intros [= <- _]].
    destruct (Employees_lookup _ _); destruct (MarshalEmployee _);
      by intros [= <- _].
  - unfold EmployeeResource_Update.
    destruct (FromContext (Ctx r)) as [params [|]]; [|by intros [= <- _]].
    destruct (ReadJSON ReadAll UnmarshalEmployee r _) as [v [err|]];
      [by intros [= <- _]|].
    destruct (Employees er); [by intros [= <- _]|done].
  - unfold EmployeeResource_Destroy.
    destruct (FromContext (Ctx r)) as [params [|]]; by intros [= <- _].
  - unfold EmployeeResource_Create.
    destruct (ReadJSON ReadAll UnmarshalEmployee r _) as [v [err|]].
    + intros [= <- <-]. by left.
    + destruct (Employees er); [|done]. intros [= <- _]. by right.
Qed.

End ExampleFacts.

Lemma Show_unknown_goes_on_witness :
  let er := {| lastID := 0; Employees := Some ∅ |} in
  let r := item_request "GET" "/employees/7" "7" in
  FromContext (Ctx r) = ({[ "id" := "7" ]}, true) /\
  Employees_lookup (Employees er) (RouteParams_get {[ "id" := "7" ]} "id") = None /\
  EmployeeResource_Show (H := name_coding) er [] r
  = Some (er, (http_NotFound [] r
               ++ [SetHeader "Content-Type" "application/json"; Write ""])%list).
Proof.
  split_and!; [reflexivity|reflexivity|].
  exact (Show_unknown_goes_on (H := name_coding)
           {| lastID := 0; Employees := Some ∅ |} []
           (item_request "GET" "/employees/7" "7") {[ "id" := "7" ]} ""
           eq_refl eq_refl eq_refl).
Defined.

Lemma Update_unknown_stores_witness :
  let er := {| lastID := 0; Employees := Some ∅ |} in
  let r := item_request "PUT" "/employees/7" "7" in
  FromContext (Ctx r) = ({[ "id" := "7" ]}, true) /\
  (∅ : gmap string Employee) !! RouteParams_get {[ "id" := "7" ]} "id" = None /\
  ReadJSON (ReadAll (External := name_coding)) (UnmarshalEmployee (External := name_coding))
    r {| Name := "" |} = ({| Name := "Ann" |}, None) /\
  exists er',
    EmployeeResource_Update (H := name_coding) er [] r
    = Some (er', (http_NotFound [] r ++ [WriteHeader StatusOK])%list) /\
    Employees_lookup (Employees er') "7" = Some {| Name := "Ann" |}.
Proof.
  assert (Hid : (∅ : gmap string Employee)
                !! RouteParams_get {[ "id" := "7" ]} "id" = None) by reflexivity.
  split_and!; [reflexivity|exact Hid|reflexivity|].
  destruct (Update_unknown_stores (H := name_coding)
              {| lastID := 0; Employees := Some ∅ |} []
              (item_request "PUT" "/employees/7" "7") {[ "id" := "7" ]} ∅
              {| Name := "Ann" |} eq_refl eq_refl Hid eq_refl)
    as (er' & Hupd & Hfound & _).
  exists er'. split; [exact Hupd|exact Hfound].
Defined.

Lemma Create_then_Show_witness :
  let er := {| lastID := 0; Employees := Some ∅ |} in
  let r := NewRequest "POST" "/employees" in
  ReadJSON (ReadAll (External := name_coding)) (UnmarshalEmployee (External := name_coding))
    r {| Name := "" |} = ({| Name := "Ann" |}, None) /\
  exists er',
    EmployeeResource_Create (H := name_coding) er [] r = Some (er', [Write "1"]) /\
    EmployeeResource_Show (H := name_coding) er' [] (item_request "GET" "/employees/1" "1")
    = Some (er', [SetHeader "Content-Type" "application/json"; Write "Ann"]).
Proof.
  split; [reflexivity|].
  destruct (Create_then_Show (H := name_coding)
              {| lastID := 0; Employees := Some ∅ |} []
              (NewRequest "POST" "/employees") ∅ {| Name := "Ann" |}
              eq_refl eq_refl)
    as (er' & id & Hcreate & -> & Hshow).
  exists er'. split; [exact Hcreate|].
  exact (Hshow [] (item_request "GET" "/employees/1" "1") {[ "id" := "1" ]}
           eq_refl eq_refl).
Defined.

Lemma Destroy_removes_witness :
  let er := {| lastID := 1; Employees := Some {[ "1" := {| Name := "Ann" |} ]} |} in
  let r := item_request "DELETE" "/employees/1" "1" in
  FromContext (Ctx r) = ({[ "id" := "1" ]}, true) /\
  exists er' w',
    EmployeeResource_Destroy er [] r = Some (er', w') /\
    Employees_lookup (Employees er') "1" = None /\
    lastID er' = 1 /\
    w' = [WriteHeader StatusOK].
Proof.
  split; [reflexivity|].
  destruct (Destroy_removes
              {| lastID := 1; Employees := Some {[ "1" := {| Name := "Ann" |} ]} |} []
              (item_request "DELETE" "/employees/1" "1") {[ "id" := "1" ]} eq_refl)
    as (er' & w' & Hdel & Hgone & _ & Hlast & _ & Hthere).
  exists er', w'. split_and!; [exact Hdel|exact Hgone|exact Hlast|].
  apply Hthere. by eexists.
Defined.

Lemma Create_fresh_witness :
  let er := {| lastID := 1; Employees := Some {[ "1" := {| Name := "Bob" |} ]} |} in
  let r := NewRequest "POST" "/employees" in
  ids_issued er /\ 0 <= lastID er < 2 ^ 63 - 1 /\
  ReadJSON (ReadAll (External := name_coding)) (UnmarshalEmployee (External := name_coding))
    r {| Name := "" |} = ({| Name := "Ann" |}, None) /\
  exists er',
    EmployeeResource_Create (H := name_coding) er [] r = Some (er', [Write "2"]) /\
    lastID er' = 2 /\
    Employees_lookup (Employees er') "1" = Some {| Name := "Bob" |} /\
    ids_issued er'.
Proof.
  assert (Hinv : ids_issued {| lastID := 1;
                               Employees := Some {[ "1" := {| Name := "Bob" |} ]} |}).
  { intros k e Hk. simpl in Hk.
    apply lookup_singleton_Some in Hk as [<- _].
    exists 1. split; [simpl; lia|reflexivity]. }
  assert (Hlast : 0 <= 1 < 2 ^ 63 - 1) by lia.
  split; [exact Hinv|]. split; [exact Hlast|]. split; [reflexivity|].
  destruct (Create_fresh (H := name_coding) _ [] (NewRequest "POST" "/employees")
              {[ "1" := {| Name := "Bob" |} ]} {| Name := "Ann" |}
              Hinv Hlast eq_refl eq_refl)
    as (er' & Hcreate & Hid & _ & _ & Hkeep & Hinv').
  exists er'. split_and!; [exact Hcreate|exact Hid| |exact Hinv'].
  apply Hkeep. reflexivity.
Defined.
